(** * Composer: algorithm settings registry, MNIST hparams, ensure_tuple

    A shallow embedding of
    - [tests/algorithms/algorithm_settings.py]  (module [Registry]),
    - [composer/datasets/mnist.py]              (module [Mnist]),
    - [composer.utils.ensure_tuple], as exercised by
      [tests/utils/test_iter_helpers.py]        (module [IterHelpers]).

    Python code that raises is embedded in a state-and-error monad.  Calls
    that leave the embedded modules (constructors of models and datasets,
    pytest, torchvision, reflection over live classes) go through [extcall]:
    the call is appended to a log and its result is supplied by an
    environment that owns a state of its own. *)

From stdpp Require Import gmap strings list fin_maps.
From Stdlib Require Import ZArith.
From Stdlib.Strings Require Import Byte.

Local Open Scope string_scope.
Local Open Scope list_scope.
Local Set Warnings "-register-all".

(** ** Python values *)

(** The algorithm classes imported by [algorithm_settings.py].  A class is
    identified by identity, which is Rocq equality on this type; [OtherAlg]
    stands for any further subclass of [Algorithm], and may well carry the
    [__name__] of an imported class without being that class. *)
Inductive AlgCls : Type :=
| AGC | EMA | SAM | SWA | Alibi | AugMix | BlurPool | ChannelsLast | ColOut
| CutMix | CutOut | Factorize | GhostBatchNorm | LabelSmoothing
| LayerFreezing | MixUp | NoOpModel | ProgressiveResizing | RandAugment
| SelectiveBackprop | SeqLengthWarmup | SqueezeExcite | StochasticDepth
| OtherAlg (name : string).

Definition __name__ (c : AlgCls) : string :=
  match c with
  | AGC => "AGC" | EMA => "EMA" | SAM => "SAM" | SWA => "SWA"
  | Alibi => "Alibi" | AugMix => "AugMix" | BlurPool => "BlurPool"
  | ChannelsLast => "ChannelsLast" | ColOut => "ColOut" | CutMix => "CutMix"
  | CutOut => "CutOut" | Factorize => "Factorize"
  | GhostBatchNorm => "GhostBatchNorm" | LabelSmoothing => "LabelSmoothing"
  | LayerFreezing => "LayerFreezing" | MixUp => "MixUp"
  | NoOpModel => "NoOpModel" | ProgressiveResizing => "ProgressiveResizing"
  | RandAugment => "RandAugment" | SelectiveBackprop => "SelectiveBackprop"
  | SeqLengthWarmup => "SeqLengthWarmup" | SqueezeExcite => "SqueezeExcite"
  | StochasticDepth => "StochasticDepth"
  | OtherAlg name => name
  end.

Global Instance AlgCls_eq_dec : EqDecision AlgCls.
Proof. solve_decision. Defined.

Definition AlgCls_code (c : AlgCls) : nat + string :=
  match c with
  | AGC => inl 0 | EMA => inl 1 | SAM => inl 2 | SWA => inl 3
  | Alibi => inl 4 | AugMix => inl 5 | BlurPool => inl 6
  | ChannelsLast => inl 7 | ColOut => inl 8 | CutMix => inl 9
  | CutOut => inl 10 | Factorize => inl 11 | GhostBatchNorm => inl 12
  | LabelSmoothing => inl 13 | LayerFreezing => inl 14 | MixUp => inl 15
  | NoOpModel => inl 16 | ProgressiveResizing => inl 17
  | RandAugment => inl 18 | SelectiveBackprop => inl 19
  | SeqLengthWarmup => inl 20 | SqueezeExcite => inl 21
  | StochasticDepth => inl 22
  | OtherAlg name => inr name
  end.

Definition AlgCls_decode (x : nat + string) : AlgCls :=
  match x with
  | inl 0 => AGC | inl 1 => EMA | inl 2 => SAM | inl 3 => SWA
  | inl 4 => Alibi | inl 5 => AugMix | inl 6 => BlurPool
  | inl 7 => ChannelsLast | inl 8 => ColOut | inl 9 => CutMix
  | inl 10 => CutOut | inl 11 => Factorize | inl 12 => GhostBatchNorm
  | inl 13 => LabelSmoothing | inl 14 => LayerFreezing | inl 15 => MixUp
  | inl 16 => NoOpModel | inl 17 => ProgressiveResizing
  | inl 18 => RandAugment | inl 19 => SelectiveBackprop
  | inl 20 => SeqLengthWarmup | inl 21 => SqueezeExcite
  | inl _ => StochasticDepth
  | inr name => OtherAlg name
  end.

Global Instance AlgCls_countable : Countable AlgCls.
Proof.
  apply (inj_countable' AlgCls_code AlgCls_decode).
  intros c; destruct c; reflexivity.
Defined.

(** The model and dataset classes named in the settings table. *)
Inductive Factory : Type :=
| SimpleConvModel      (* tests.common.SimpleConvModel *)
| RandomImageDataset   (* tests.common.RandomImageDataset *)
| ComposerResNet.      (* composer.models.ComposerResNet *)

(** The Python values that occur in the embedded code.  A float literal is
    kept as written ([VFloat 2 (-1)] is [0.2]); no float arithmetic is ever
    performed on it.  [VObj] is an object built outside the embedded code
    (a model, a dataset, a tensor), known only by its address. *)
Inductive PyVal : Type :=
| VNone
| VBool (b : bool)
| VInt (n : Z)
| VFloat (digits exp10 : Z)
| VStr (s : string)
| VBytes (bs : list byte)
| VByteArray (bs : list byte)
| VTuple (xs : list PyVal)
| VList (xs : list PyVal)
| VRange (start stop step : Z)
| VDict (items : list (string * PyVal))
| VAlg (c : AlgCls)
| VClass (f : Factory)
| VObj (addr : N).

(** A [dict] with [str] keys, in insertion order. *)
Abbreviation dict := (list (string * PyVal)).

Fixpoint dict_get (d : dict) (key : string) : option PyVal :=
  match d with
  | [] => None
  | (k, v) :: d' => if String.eqb k key then Some v else dict_get d' key
  end.

(** ** Exceptions and the monad *)

(** [External] is an exception that escapes from code outside the embedded
    modules, described by its [repr]. *)
Inductive exn : Type :=
| ValueError (msg : string)
| KeyError (key : PyVal)
| TypeError (msg : string)
| Skipped (reason : string)        (* pytest.skip.Exception *)
| External (repr : string).

Inductive outcome (A : Type) : Type :=
| Return (a : A)
| Raise (e : exn).
Arguments Return {A} a.
Arguments Raise {A} e.

Definition returns {A} (o : outcome A) : Prop := ∃ a, o = Return a.

Section Effects.
(** [G]: the module's own globals; [C]: descriptors of external calls;
    [E]: the state of everything outside the module. *)
Context {G C E : Type}.

Record World : Type := mkWorld { globals : G; env : E; calls : list C }.

Definition M (A : Type) : Type := World → outcome A * World.

Definition ret {A} (a : A) : M A := λ w, (Return a, w).

Definition raise {A} (e : exn) : M A := λ w, (Raise e, w).

Definition bind {A B} (m : M A) (k : A → M B) : M B :=
  λ w, match m w with
       | (Return a, w') => k a w'
       | (Raise e, w') => (Raise e, w')
       end.

Definition read_globals : M G := λ w, (Return (globals w), w).

(** Lift the environment's answer: an escaping exception propagates. *)
Definition answer {R} (r : string + R) : outcome R :=
  match r with
  | inl repr => Raise (External repr)
  | inr v => Return v
  end.

(** An external call: logged, answered by the environment, which may
    change its own state but has no handle on the module's globals. *)
Definition extcall {R} (c : C) (f : E → (string + R) * E) : M R :=
  λ w, let '(r, e') := f (env w) in
       (answer r, mkWorld (globals w) e' (calls w ++ [c])).
End Effects.

Arguments World : clear implicits.
Arguments M : clear implicits.

Global Instance M_ret {G C E} : MRet (M G C E) := λ A, ret.
Global Instance M_bind {G C E} : MBind (M G C E) := λ A B k m, bind m k.

(** A computation that leaves the module's globals as it found them,
    whether it returns or raises. *)
Definition keeps_globals {G C E A} (m : M G C E A) : Prop :=
  ∀ w, globals (snd (m w)) = globals w.

(** Subscripting a dict: [d[key]]. *)
Definition getitem {G C E} (d : dict) (key : string) : M G C E PyVal :=
  match dict_get d key with
  | Some v => ret v
  | None => raise (KeyError (VStr key))
  end.

(** ** tests/algorithms/algorithm_settings.py *)

Module Registry.

(** pytest marks and [pytest.param]. *)
Inductive Mark : Type :=
| filterwarnings (pattern : string)
| xfail (reason : string).

Record Param : Type := param { values : AlgCls; marks : list Mark; id : string }.

Inductive Call : Type :=
| CallGetModuleSubclasses   (* common.get_module_subclasses(composer.algorithms, Algorithm) *)
| CallImportOrSkip (modname minversion reason : string)
| CallConstruct (cls : PyVal) (kwargs : dict).

Definition simple_vision_settings : dict :=
  [ ("model", VClass SimpleConvModel);
    ("dataset", VClass RandomImageDataset);
    ("kwargs", VDict []) ].

Definition simple_vision_pil_settings : dict :=
  [ ("model", VClass SimpleConvModel);
    ("dataset", VTuple [VClass RandomImageDataset; VDict [("is_PIL", VBool true)]]);
    ("kwargs", VDict []) ].

Definition simple_resnet_settings : dict :=
  [ ("model", VTuple [VClass ComposerResNet;
                      VDict [("model_name", VStr "resnet18"); ("num_classes", VInt 2)]]);
    ("dataset", VTuple [VClass RandomImageDataset;
                        VDict [("shape", VTuple [VInt 3; VInt 224; VInt 224])]]);
    ("kwargs", VDict []) ].

(** The entries of the dict literal bound to [_settings], in source order. *)
Definition _settings_items : list (AlgCls * option dict) :=
  [ (AGC, Some simple_vision_settings);
    (Alibi, None);
    (AugMix, Some simple_vision_settings);
    (BlurPool, Some
       [ ("model", VClass SimpleConvModel);
         ("dataset", VClass RandomImageDataset);
         ("kwargs", VDict [("min_channels", VInt 0)]) ]);
    (ChannelsLast, Some simple_vision_settings);
    (ColOut, Some simple_vision_settings);
    (CutMix, Some
       [ ("model", VClass SimpleConvModel);
         ("dataset", VClass RandomImageDataset);
         ("kwargs", VDict [("num_classes", VInt 2)]) ]);
    (CutOut, Some simple_vision_settings);
    (EMA, Some
       [ ("model", VClass SimpleConvModel);
         ("dataset", VClass RandomImageDataset);
         ("kwargs", VDict [("half_life", VStr "1ba")]) ]);
    (Factorize, Some simple_resnet_settings);
    (GhostBatchNorm, Some
       [ ("model", VTuple [VClass ComposerResNet;
                           VDict [("model_name", VStr "resnet18"); ("num_classes", VInt 2)]]);
         ("dataset", VTuple [VClass RandomImageDataset;
                             VDict [("shape", VTuple [VInt 3; VInt 224; VInt 224])]]);
         ("kwargs", VDict [("ghost_batch_size", VInt 2)]) ]);
    (LabelSmoothing, Some simple_vision_settings);
    (LayerFreezing, Some simple_vision_settings);
    (MixUp, Some simple_vision_settings);
    (ProgressiveResizing, Some simple_vision_settings);
    (RandAugment, Some simple_vision_settings);
    (NoOpModel, Some simple_vision_settings);
    (SAM, Some simple_vision_settings);
    (SelectiveBackprop, Some simple_vision_settings);
    (SeqLengthWarmup, None);
    (SqueezeExcite, Some simple_resnet_settings);
    (StochasticDepth, Some
       [ ("model", VTuple [VClass ComposerResNet;
                           VDict [("model_name", VStr "resnet50"); ("num_classes", VInt 2)]]);
         ("dataset", VTuple [VClass RandomImageDataset;
                             VDict [("shape", VTuple [VInt 3; VInt 224; VInt 224])]]);
         ("kwargs", VDict
            [ ("stochastic_method", VStr "block");
              ("target_layer_name", VStr "ResNetBottleneck");
              ("drop_rate", VFloat 2 (-1));
              ("drop_distribution", VStr "linear");
              ("drop_warmup", VStr "0.0dur");
              ("use_same_gpu_seed", VBool false) ]) ]);
    (SWA, Some
       [ ("model", VClass SimpleConvModel);
         ("dataset", VClass RandomImageDataset);
         ("kwargs", VDict
            [ ("swa_start", VStr "0.2dur");
              ("swa_end", VStr "0.97dur");
              ("update_interval", VStr "1ep");
              ("schedule_swa_lr", VBool true) ]) ]) ].

(** [_settings : Dict[Type[Algorithm], Optional[Dict[str, Any]]]].  A key
    bound to Python's [None] is [Some None]; an absent key is [None]. *)
Definition _settings : gmap AlgCls (option dict) := list_to_map _settings_items.

Section WithEnvironment.
Variable E : Type.
(** What [common.get_module_subclasses(composer.algorithms, Algorithm)]
    finds: the live subclasses of [Algorithm]. *)
Variable get_module_subclasses : E → (string + list AlgCls) * E.
(** Whether [modname] can be imported with a version of at least
    [minversion] (the test made by [pytest.importorskip]). *)
Variable importable : string → string → E → bool * E.
(** What calling a class with keyword arguments gives. *)
Variable instantiate : PyVal → dict → E → (string + PyVal) * E.

Abbreviation Reg := (M (gmap AlgCls (option dict)) Call E).

Definition missing_settings_error (alg_cls : AlgCls) : exn :=
  ValueError ("Algorithm " +:+ __name__ alg_cls +:+ " not in the settings dictionary.").

Definition _get_alg_settings (alg_cls : AlgCls) : Reg dict :=
  _settings ← read_globals;
  match _settings !! alg_cls with
  | None | Some None => raise (missing_settings_error alg_cls)
  | Some (Some settings) => ret settings
  end.

(** [(cls, kwargs) = settings] for a tuple, [(settings, {})] otherwise. *)
Definition unpack_settings (settings : PyVal) : Reg (PyVal * PyVal) :=
  match settings with
  | VTuple [cls; kwargs] => ret (cls, kwargs)
  | VTuple ([] | [_]) => raise (ValueError "not enough values to unpack (expected 2)")
  | VTuple _ => raise (ValueError "too many values to unpack (expected 2)")
  | _ => ret (settings, VDict [])
  end.

Definition callable (v : PyVal) : bool :=
  match v with
  | VAlg _ | VClass _ | VObj _ => true
  | _ => false
  end.

(** [cls( **kwargs )]: the keyword arguments reach the callee as a fresh
    dict, so the callee holds no reference to [kwargs] itself. *)
Definition call_with_kwargs (cls kwargs : PyVal) : Reg PyVal :=
  match kwargs with
  | VDict kw =>
      if callable cls then extcall (CallConstruct cls kw) (instantiate cls kw)
      else raise (TypeError "object is not callable")
  | _ => raise (TypeError "argument after ** must be a mapping")
  end.

Definition get_alg_kwargs (alg_cls : AlgCls) : Reg PyVal :=
  settings ← _get_alg_settings alg_cls;
  getitem settings "kwargs".

Definition get_alg_model (alg_cls : AlgCls) : Reg PyVal :=
  record ← _get_alg_settings alg_cls;
  settings ← getitem record "model";
  '(cls, kwargs) ← unpack_settings settings;
  call_with_kwargs cls kwargs.

Definition get_alg_dataset (alg_cls : AlgCls) : Reg PyVal :=
  record ← _get_alg_settings alg_cls;
  settings ← getitem record "dataset";
  '(cls, kwargs) ← unpack_settings settings;
  call_with_kwargs cls kwargs.

(** [pytest.importorskip(modname, minversion=..., reason=...)]. *)
Definition importorskip (modname minversion reason : string) : Reg unit :=
  ok ← extcall (CallImportOrSkip modname minversion reason)
               (λ e, let '(b, e') := importable modname minversion e in (inr b, e'));
  if ok : bool then ret () else raise (Skipped reason).

Definition swa_warning : string :=
  "ignore:Detected call of `lr_scheduler.step\(\)` before `optimizer.step\(\)`:UserWarning".

Definition mixup_warning : string :=
  "ignore:Some targets have less than 1 total probability:UserWarning".

(** [_settings[alg_cls]], on a key that may be absent. *)
Definition _settings_getitem (alg_cls : AlgCls) : Reg (option dict) :=
  _settings ← read_globals;
  match _settings !! alg_cls with
  | Some settings => ret settings
  | None => raise (KeyError (VAlg alg_cls))
  end.

(** The marks the loop body collects for one class. *)
Definition marks_for (alg_cls : AlgCls) (settings : option dict) : list Mark :=
  let marks := [] in
  let marks := if bool_decide (alg_cls = SWA)
               then marks ++ [filterwarnings swa_warning] else marks in
  let marks := if bool_decide (alg_cls = MixUp)
               then marks ++ [filterwarnings mixup_warning] else marks in
  let marks := if settings is None
               then marks ++ [xfail ("Algorithm " +:+ __name__ alg_cls +:+ " is missing settings.")]
               else marks in
  marks.

(** The body of the [for] loop, with [ans] threaded through. *)
Fixpoint get_algs_with_marks_loop (classes : list AlgCls) (ans : list Param)
  : Reg (list Param) :=
  match classes with
  | [] => ret ans
  | alg_cls :: classes' =>
      settings ← _settings_getitem alg_cls;
      _ ← (if bool_decide (alg_cls ∈ [CutMix; MixUp; LabelSmoothing])
           then importorskip "torch" "1.10" "Pytorch 1.10 required."
           else ret ());
      get_algs_with_marks_loop classes'
        (ans ++ [param alg_cls (marks_for alg_cls settings) (__name__ alg_cls)])
  end.

Definition get_algs_with_marks : Reg (list Param) :=
  classes ← extcall CallGetModuleSubclasses get_module_subclasses;
  get_algs_with_marks_loop classes [].

End WithEnvironment.

End Registry.

(** *** Sequences of calls to the public operations *)

Module RegistryOps.
Import Registry.

Inductive Op : Type :=
| OpKwargs (alg_cls : AlgCls)     (* get_alg_kwargs(alg_cls) *)
| OpModel (alg_cls : AlgCls)      (* get_alg_model(alg_cls) *)
| OpDataset (alg_cls : AlgCls)    (* get_alg_dataset(alg_cls) *)
| OpMarks.                        (* get_algs_with_marks() *)

Section WithEnvironment.
Variable E : Type.
Variable get_module_subclasses : E → (string + list AlgCls) * E.
Variable importable : string → string → E → bool * E.
Variable instantiate : PyVal → dict → E → (string + PyVal) * E.

(** The world a caller is left with after one call: the result, or the
    exception the caller caught, is dropped. *)
Definition run_op (op : Op) (w : World (gmap AlgCls (option dict)) Call E)
  : World (gmap AlgCls (option dict)) Call E :=
  match op with
  | OpKwargs alg_cls => snd (get_alg_kwargs E alg_cls w)
  | OpModel alg_cls => snd (get_alg_model E instantiate alg_cls w)
  | OpDataset alg_cls => snd (get_alg_dataset E instantiate alg_cls w)
  | OpMarks => snd (get_algs_with_marks E get_module_subclasses importable w)
  end.

Definition run_ops (ops : list Op) (w : World (gmap AlgCls (option dict)) Call E)
  : World (gmap AlgCls (option dict)) Call E :=
  foldl (λ w op, run_op op w) w ops.

End WithEnvironment.

(** The classes imported from [composer.algorithms], in import order. *)
Definition imported_algorithms : list AlgCls :=
  [ AGC; EMA; SAM; SWA; Alibi; AugMix; BlurPool; ChannelsLast; ColOut; CutMix;
    CutOut; Factorize; GhostBatchNorm; LabelSmoothing; LayerFreezing; MixUp;
    NoOpModel; ProgressiveResizing; RandAugment; SelectiveBackprop;
    SeqLengthWarmup; SqueezeExcite; StochasticDepth ].

(** A small concrete environment: its state counts the objects built so
    far, and every constructor call returns a fresh object. *)
Definition test_subclasses (classes : list AlgCls) : N → (string + list AlgCls) * N :=
  λ e, (inr classes, e).

Definition test_importable (ok : bool) : string → string → N → bool * N :=
  λ _ _ e, (ok, e).

Definition test_instantiate : PyVal → dict → N → (string + PyVal) * N :=
  λ _ _ e, (inr (VObj e), N.succ e).

Definition test_world : World (gmap AlgCls (option dict)) Call N :=
  mkWorld _settings 0%N [].

(** A world in which the module has just been imported: [_settings] holds
    its dict literal; the environment and the log are arbitrary. *)
Definition initial_world {E} (e : E) (log : list Call)
  : World (gmap AlgCls (option dict)) Call E :=
  mkWorld _settings e log.

(** What a 'model' or 'dataset' entry asks for, in the words of the
    docstrings ("an instance of the model for an algorithm"): a bare class
    stands for the class called with no arguments, a (class, kwargs) pair
    for the class called with those keyword arguments. *)
Inductive stands_for : PyVal → PyVal → dict → Prop :=
| bare_class f : stands_for (VClass f) (VClass f) []
| class_with_kwargs f kw : stands_for (VTuple [VClass f; VDict kw]) (VClass f) kw.

(** The entry [get_algs_with_marks] appends for a class found under
    [settings] in the table. *)
Definition param_for (table : gmap AlgCls (option dict)) (alg_cls : AlgCls) (p : Param) : Prop :=
  ∃ settings, table !! alg_cls = Some settings
              ∧ p = param alg_cls (marks_for alg_cls settings) (__name__ alg_cls).

(** [alg_cls not in _settings or _settings[alg_cls] is None]. *)
Definition lacks_settings (table : gmap AlgCls (option dict)) (alg_cls : AlgCls) : Prop :=
  table !! alg_cls = None ∨ table !! alg_cls = Some None.

End RegistryOps.

(** ** composer/datasets/mnist.py *)

Module Mnist.

(** [MNISTDatasetHparams(DatasetHparams, SyntheticHparamsMixin)].  The
    inherited fields are the attributes [initialize_object] reads; the three
    [synthetic_*] settings are only handed on, so they stay Python values. *)
Record MNISTDatasetHparams : Type := {
  (* DatasetHparams *)
  is_train : bool;
  drop_last : bool;
  shuffle : bool;
  datadir : option string;
  (* SyntheticHparamsMixin *)
  use_synthetic : bool;
  synthetic_num_unique_samples : PyVal;
  synthetic_device : PyVal;
  synthetic_memory_format : PyVal;
  (* MNISTDatasetHparams *)
  download : bool
}.

(** The calls [initialize_object] makes into other modules. *)
Inductive Call : Type :=
| SyntheticBatchPairDataset (total_dataset_size : Z) (data_shape : list Z)
    (num_classes : Z) (num_unique_samples_to_create device memory_format : PyVal)
| ToTensor                                   (* transforms.ToTensor() *)
| Compose (transforms : list PyVal)          (* transforms.Compose([...]) *)
| MNIST (root : string) (train download : bool) (transform : PyVal)
                                             (* datasets.MNIST(...) *)
| get_sampler (dataset : PyVal) (drop_last shuffle : bool)
                                             (* dist.get_sampler(...) *)
| DataLoaderHparams_initialize_object (self dataset : PyVal) (batch_size : Z)
    (sampler : PyVal) (drop_last : bool).

(** The calls that construct a dataset. *)
Definition constructs_dataset (c : Call) : bool :=
  match c with
  | SyntheticBatchPairDataset _ _ _ _ _ _ | MNIST _ _ _ _ => true
  | _ => false
  end.

Definition is_MNIST (c : Call) : bool :=
  match c with
  | MNIST _ _ _ _ => true
  | _ => false
  end.

Section WithEnvironment.
Variable E : Type.
(** What each external call gives. *)
Variable extern : Call → E → (string + PyVal) * E.

Abbreviation Init := (M unit Call E).

Definition call (c : Call) : Init PyVal := extcall c (extern c).

Definition initialize_object (self : MNISTDatasetHparams) (batch_size : Z)
    (dataloader_hparams : PyVal) : Init PyVal :=
  dataset ←
    (if use_synthetic self then
       call (SyntheticBatchPairDataset
               (if is_train self then 60000 else 10000)
               [1; 28; 28]%Z
               10
               (synthetic_num_unique_samples self)
               (synthetic_device self)
               (synthetic_memory_format self))
     else
       match datadir self with
       | None => raise (ValueError "datadir is required if synthetic is False")
       | Some root =>
           to_tensor ← call ToTensor;
           transform ← call (Compose [to_tensor]);
           call (MNIST root (is_train self) (download self) transform)
       end);
  sampler ← call (get_sampler dataset (drop_last self) (shuffle self));
  call (DataLoaderHparams_initialize_object
          dataloader_hparams dataset batch_size sampler (drop_last self)).

End WithEnvironment.

(** The same hparams with other [datadir] and [download] fields. *)
Definition with_datadir_download (self : MNISTDatasetHparams)
    (datadir' : option string) (download' : bool) : MNISTDatasetHparams :=
  {| is_train := is_train self;
     drop_last := drop_last self;
     shuffle := shuffle self;
     datadir := datadir';
     use_synthetic := use_synthetic self;
     synthetic_num_unique_samples := synthetic_num_unique_samples self;
     synthetic_device := synthetic_device self;
     synthetic_memory_format := synthetic_memory_format self;
     download := download' |}.

(** A concrete environment and two concrete hparams objects. *)
Definition test_extern : Call → N → (string + PyVal) * N :=
  λ _ e, (inr (VObj e), N.succ e).

Definition test_world : World unit Call N := mkWorld () 0%N [].

Definition synthetic_hparams (train : bool) : MNISTDatasetHparams :=
  {| is_train := train; drop_last := true; shuffle := true; datadir := None;
     use_synthetic := true;
     synthetic_num_unique_samples := VInt 100;
     synthetic_device := VStr "cpu";
     synthetic_memory_format := VStr "contiguous_format";
     download := true |}.

Definition real_hparams_without_datadir : MNISTDatasetHparams :=
  {| is_train := true; drop_last := true; shuffle := true; datadir := None;
     use_synthetic := false;
     synthetic_num_unique_samples := VInt 100;
     synthetic_device := VStr "cpu";
     synthetic_memory_format := VStr "contiguous_format";
     download := true |}.

End Mnist.

(** ** composer.utils.ensure_tuple *)

Module IterHelpers.

(** [len(range(start, stop, step))]. *)
Definition range_len (start stop step : Z) : Z :=
  if (0 <? step)%Z then Z.max 0 ((stop - start + step - 1) / step)
  else if (step <? 0)%Z then Z.max 0 ((start - stop - step - 1) / (- step))
  else 0%Z.

(** The elements of [range(start, stop, step)], in order. *)
Definition range_items (start stop step : Z) : list PyVal :=
  (λ i : nat, VInt (start + Z.of_nat i * step)) <$> seq 0 (Z.to_nat (range_len start stop step)).

(** Modelled from the spec: [composer.utils.ensure_tuple], whose defining
    module (composer/utils/iter_helpers.py) is not among the sources; only
    its tests are.  [None] gives the empty tuple; a [str], [bytes] or
    [bytearray] gives a one-element tuple holding it; a [tuple], [list] or
    [range] gives the tuple of its elements in order; a [dict] gives the
    tuple of its values in order; any other object gives a one-element
    tuple holding it. *)
Definition ensure_tuple (x : PyVal) : PyVal :=
  match x with
  | VNone => VTuple []
  | VStr _ | VBytes _ | VByteArray _ => VTuple [x]
  | VTuple xs | VList xs => VTuple xs
  | VRange start stop step => VTuple (range_items start stop step)
  | VDict items => VTuple (snd <$> items)
  | _ => VTuple [x]
  end.

(** The values the tests pass in. *)
Definition b_test : list byte := ["t"%byte; "e"%byte; "s"%byte; "t"%byte].
Definition torch_arange_3 : PyVal := VObj 1.
Definition np_arange_3 : PyVal := VObj 2.

End IterHelpers.

(** ** Further concrete inputs *)

Module Inputs.
Import Registry RegistryOps.

(** A world whose table holds one malformed record: no 'kwargs', no
    'dataset', and a 'model' tuple of one element. *)
Definition malformed_world : World (gmap AlgCls (option dict)) Call N :=
  mkWorld {[ AGC := Some [("model", VTuple [VClass SimpleConvModel])] ]} 0%N [].


(** MNIST hparams for real data under a data directory. *)
Definition real_hparams (root : string) (device : PyVal) : Mnist.MNISTDatasetHparams :=
  {| Mnist.is_train := true; Mnist.drop_last := true; Mnist.shuffle := false;
     Mnist.datadir := Some root;
     Mnist.use_synthetic := false;
     Mnist.synthetic_num_unique_samples := VInt 100;
     Mnist.synthetic_device := device;
     Mnist.synthetic_memory_format := VStr "contiguous_format";
     Mnist.download := false |}.

End Inputs.

(** * Properties *)

(** ** The monad *)

Ltac run :=
  unfold mbind, mret, M_bind, M_ret, bind, ret, raise, read_globals, getitem in *;
  cbn [fst snd globals env calls] in *.

(** Close a hypothesis [x ∈ [y1; ...; yn]] in which [x] is none of the [yi]. *)
Ltac no_such_elem H :=
  repeat (apply elem_of_cons in H as [H|H]; [ discriminate H | ]);
  apply elem_of_nil in H; exact H.

Section RegistryFacts.
Import Registry RegistryOps.
Variable E : Type.
Variable get_module_subclasses : E → (string + list AlgCls) * E.
Variable importable : string → string → E → bool * E.
Variable instantiate : PyVal → dict → E → (string + PyVal) * E.

Lemma _settings_lookup_other name : _settings !! OtherAlg name = None.
Proof.
  apply not_elem_of_list_to_map_1. cbn.
  intros H. no_such_elem H.
Qed.

Lemma _get_alg_settings_run alg_cls (w : World (gmap AlgCls (option dict)) Call E) :
  _get_alg_settings E alg_cls w =
  (match globals w !! alg_cls with
   | Some (Some settings) => Return settings
   | _ => Raise (missing_settings_error alg_cls)
   end, w).
Proof.
  unfold _get_alg_settings. run.
  destruct (globals w !! alg_cls) as [[settings|]|]; reflexivity.
Qed.

Lemma get_alg_kwargs_run alg_cls (w : World (gmap AlgCls (option dict)) Call E) :
  get_alg_kwargs E alg_cls w =
  (match globals w !! alg_cls with
   | Some (Some settings) =>
       match dict_get settings "kwargs" with
       | Some kwargs => Return kwargs
       | None => Raise (KeyError (VStr "kwargs"))
       end
   | _ => Raise (missing_settings_error alg_cls)
   end, w).
Proof.
  unfold get_alg_kwargs. unfold mbind, M_bind, bind.
  rewrite _get_alg_settings_run.
  destruct (globals w !! alg_cls) as [[settings|]|]; try reflexivity.
  run. destruct (dict_get settings "kwargs"); reflexivity.
Qed.

(** A class whose record is found makes [get_alg_model] call what the
    'model' entry stands for; likewise [get_alg_dataset]. *)
Lemma get_alg_model_stands_for alg_cls record entry cls kw
    (w : World (gmap AlgCls (option dict)) Call E) :
  globals w !! alg_cls = Some (Some record) →
  dict_get record "model" = Some entry →
  stands_for entry cls kw →
  get_alg_model E instantiate alg_cls w
  = extcall (CallConstruct cls kw) (instantiate cls kw) w.
Proof.
  intros Hrec Hentry Hfor.
  unfold get_alg_model. unfold mbind at 1, M_bind at 1, bind at 1.
  rewrite _get_alg_settings_run, Hrec. run. rewrite Hentry.
  destruct Hfor; reflexivity.
Qed.

Lemma get_alg_dataset_stands_for alg_cls record entry cls kw
    (w : World (gmap AlgCls (option dict)) Call E) :
  globals w !! alg_cls = Some (Some record) →
  dict_get record "dataset" = Some entry →
  stands_for entry cls kw →
  get_alg_dataset E instantiate alg_cls w
  = extcall (CallConstruct cls kw) (instantiate cls kw) w.
Proof.
  intros Hrec Hentry Hfor.
  unfold get_alg_dataset. unfold mbind at 1, M_bind at 1, bind at 1.
  rewrite _get_alg_settings_run, Hrec. run. rewrite Hentry.
  destruct Hfor; reflexivity.
Qed.

Lemma fst_extcall {R} (c : Call) (f : E → (string + R) * E)
    (w : World (gmap AlgCls (option dict)) Call E) :
  fst (extcall c f w) = answer (fst (f (env w))).
Proof. unfold extcall. destruct (f (env w)); reflexivity. Qed.

(** Every record of the table has its three keys; 'kwargs' is a dict, and
    'model' and 'dataset' are a bare class or a (class, kwargs) pair. *)
Lemma _settings_records alg_cls record :
  _settings !! alg_cls = Some (Some record) →
  (∃ kw, dict_get record "kwargs" = Some (VDict kw))
  ∧ (∃ entry cls kw, dict_get record "model" = Some entry ∧ stands_for entry cls kw)
  ∧ (∃ entry cls kw, dict_get record "dataset" = Some entry ∧ stands_for entry cls kw).
Proof.
  intros Hrec.
  destruct alg_cls;
    first [ rewrite _settings_lookup_other in Hrec; discriminate Hrec
          | vm_compute in Hrec; first [ discriminate Hrec | injection Hrec as <- ] ];
    (split; [ eexists; reflexivity | ]);
    split; eexists _, _, _; (split; [ reflexivity | constructor ]).
Qed.

Lemma get_alg_kwargs_missing_iff alg_cls (w : World (gmap AlgCls (option dict)) Call E) :
  lacks_settings (globals w) alg_cls
  ↔ fst (get_alg_kwargs E alg_cls w) = Raise (missing_settings_error alg_cls).
Proof.
  rewrite get_alg_kwargs_run. unfold lacks_settings. cbn [fst].
  destruct (globals w !! alg_cls) as [[settings|]|]; [ | tauto | tauto ].
  split; [ intros [?|?]; discriminate | ].
  destruct (dict_get settings "kwargs"); discriminate.
Qed.

(** Whatever comes after a successful lookup never raises the error of a
    failed one. *)
Lemma construct_not_missing alg_cls entry (w : World (gmap AlgCls (option dict)) Call E) :
  fst ((unpack_settings E entry
          ≫= λ '(cls, kwargs), call_with_kwargs E instantiate cls kwargs) w)
  ≠ Raise (missing_settings_error alg_cls).
Proof.
  assert (Hcall : ∀ cls kwargs,
             fst (call_with_kwargs E instantiate cls kwargs w)
             ≠ Raise (missing_settings_error alg_cls)).
  { intros cls kwargs. unfold call_with_kwargs.
    destruct kwargs; try (run; discriminate).
    destruct (callable cls); [ | run; discriminate ].
    rewrite fst_extcall. destruct (fst (instantiate cls items (env w))); discriminate. }
  destruct entry as [| | | | | | | xs | | | | | |]; try apply Hcall.
  destruct xs as [|cls [|kwargs [|? ?]]]; try apply Hcall; run; discriminate.
Qed.

Lemma get_alg_model_missing_iff alg_cls (w : World (gmap AlgCls (option dict)) Call E) :
  lacks_settings (globals w) alg_cls
  ↔ fst (get_alg_model E instantiate alg_cls w) = Raise (missing_settings_error alg_cls).
Proof.
  unfold get_alg_model. unfold mbind at 1, M_bind at 1, bind at 1.
  rewrite _get_alg_settings_run. unfold lacks_settings.
  destruct (globals w !! alg_cls) as [[settings|]|]; [ | cbn; tauto | cbn; tauto ].
  split; [ intros [?|?]; discriminate | ].
  unfold mbind at 1, M_bind at 1, bind at 1. unfold getitem.
  destruct (dict_get settings "model") as [entry|]; [ | run; discriminate ].
  unfold ret at 1. intros H. exfalso. revert H. apply construct_not_missing.
Qed.

Lemma get_alg_dataset_missing_iff alg_cls (w : World (gmap AlgCls (option dict)) Call E) :
  lacks_settings (globals w) alg_cls
  ↔ fst (get_alg_dataset E instantiate alg_cls w) = Raise (missing_settings_error alg_cls).
Proof.
  unfold get_alg_dataset. unfold mbind at 1, M_bind at 1, bind at 1.
  rewrite _get_alg_settings_run. unfold lacks_settings.
  destruct (globals w !! alg_cls) as [[settings|]|]; [ | cbn; tauto | cbn; tauto ].
  split; [ intros [?|?]; discriminate | ].
  unfold mbind at 1, M_bind at 1, bind at 1. unfold getitem.
  destruct (dict_get settings "dataset") as [entry|]; [ | run; discriminate ].
  unfold ret at 1. intros H. exfalso. revert H. apply construct_not_missing.
Qed.

(** C1.  On the table as the module defines it, each of [get_alg_kwargs],
    [get_alg_model] and [get_alg_dataset] raises a [ValueError] if and only
    if the class is not a key of [_settings] or is bound to [None], and the
    error is then the configuration error
    [ValueError("Algorithm <name> not in the settings dictionary.")].
    When the class has a record, the lookup raises nothing: [get_alg_kwargs]
    returns, and [get_alg_model] and [get_alg_dataset] end exactly as the
    constructor they call ends (they return whenever it returns). *)
Theorem get_alg_raises_iff_missing (alg_cls : AlgCls) (e : E) (log : list Call) :
  (lacks_settings _settings alg_cls
   ↔ ∃ msg, fst (get_alg_kwargs E alg_cls (initial_world e log)) = Raise (ValueError msg))
  ∧ (lacks_settings _settings alg_cls
     ↔ ∃ msg, fst (get_alg_model E instantiate alg_cls (initial_world e log))
              = Raise (ValueError msg))
  ∧ (lacks_settings _settings alg_cls
     ↔ ∃ msg, fst (get_alg_dataset E instantiate alg_cls (initial_world e log))
              = Raise (ValueError msg))
  ∧ (lacks_settings _settings alg_cls →
     fst (get_alg_kwargs E alg_cls (initial_world e log))
     = Raise (missing_settings_error alg_cls)
     ∧ fst (get_alg_model E instantiate alg_cls (initial_world e log))
       = Raise (missing_settings_error alg_cls)
     ∧ fst (get_alg_dataset E instantiate alg_cls (initial_world e log))
       = Raise (missing_settings_error alg_cls))
  ∧ (¬ lacks_settings _settings alg_cls →
     returns (fst (get_alg_kwargs E alg_cls (initial_world e log)))
     ∧ (∃ cls kw, fst (get_alg_model E instantiate alg_cls (initial_world e log))
                  = answer (fst (instantiate cls kw e)))
     ∧ (∃ cls kw, fst (get_alg_dataset E instantiate alg_cls (initial_world e log))
                  = answer (fst (instantiate cls kw e)))).
Proof.
  assert (Hmissing : lacks_settings _settings alg_cls →
     fst (get_alg_kwargs E alg_cls (initial_world e log))
     = Raise (missing_settings_error alg_cls)
     ∧ fst (get_alg_model E instantiate alg_cls (initial_world e log))
       = Raise (missing_settings_error alg_cls)
     ∧ fst (get_alg_dataset E instantiate alg_cls (initial_world e log))
       = Raise (missing_settings_error alg_cls)).
  { intros Hlacks. split; [ | split ].
    - apply (get_alg_kwargs_missing_iff alg_cls (initial_world e log)), Hlacks.
    - apply (get_alg_model_missing_iff alg_cls (initial_world e log)), Hlacks.
    - apply (get_alg_dataset_missing_iff alg_cls (initial_world e log)), Hlacks. }
  assert (Hpresent : ¬ lacks_settings _settings alg_cls →
     returns (fst (get_alg_kwargs E alg_cls (initial_world e log)))
     ∧ (∃ cls kw, fst (get_alg_model E instantiate alg_cls (initial_world e log))
                  = answer (fst (instantiate cls kw e)))
     ∧ (∃ cls kw, fst (get_alg_dataset E instantiate alg_cls (initial_world e log))
                  = answer (fst (instantiate cls kw e)))).
  { intros Hpresent.
    destruct (_settings !! alg_cls) as [[record|]|] eqn:Hrec;
      [ | exfalso; apply Hpresent; right; exact Hrec
        | exfalso; apply Hpresent; left; exact Hrec ].
    destruct (_settings_records alg_cls record Hrec)
      as ((kw & Hkw) & (m & mcls & mkw & Hm & Hmfor) & (d & dcls & dkw & Hd & Hdfor)).
    split; [ | split ].
    - exists (VDict kw). rewrite get_alg_kwargs_run. cbn [fst globals initial_world].
      rewrite Hrec, Hkw. reflexivity.
    - exists mcls, mkw.
      rewrite (get_alg_model_stands_for alg_cls record m mcls mkw); try assumption.
      apply fst_extcall.
    - exists dcls, dkw.
      rewrite (get_alg_dataset_stands_for alg_cls record d dcls dkw); try assumption.
      apply fst_extcall. }
  assert (Hdec : lacks_settings _settings alg_cls ∨ ¬ lacks_settings _settings alg_cls).
  { unfold lacks_settings. destruct (_settings !! alg_cls) as [[record|]|];
      [ right; intros [?|?]; discriminate | left; right; reflexivity
        | left; left; reflexivity ]. }
  assert (Hanswer : ∀ (r : string + PyVal) msg, answer r ≠ Raise (ValueError msg))
    by (intros [repr|v] msg; discriminate).
  split; [ | split; [ | split; [ | split; [ exact Hmissing | exact Hpresent ] ] ] ].
  - split; [ intros Hlacks; eexists; apply Hmissing, Hlacks | ].
    intros [msg Hmsg]. destruct Hdec as [Hlacks|Habsent]; [ exact Hlacks | exfalso ].
    destruct (Hpresent Habsent) as ([v Hv] & _). congruence.
  - split; [ intros Hlacks; eexists; apply Hmissing, Hlacks | ].
    intros [msg Hmsg]. destruct Hdec as [Hlacks|Habsent]; [ exact Hlacks | exfalso ].
    destruct (Hpresent Habsent) as (_ & (cls & kw & Hrun) & _).
    rewrite Hrun in Hmsg. exact (Hanswer _ _ Hmsg).
  - split; [ intros Hlacks; eexists; apply Hmissing, Hlacks | ].
    intros [msg Hmsg]. destruct Hdec as [Hlacks|Habsent]; [ exact Hlacks | exfalso ].
    destruct (Hpresent Habsent) as (_ & _ & (cls & kw & Hrun)).
    rewrite Hrun in Hmsg. exact (Hanswer _ _ Hmsg).
Qed.

(** C4.  For a class with a record in [_settings], [get_alg_kwargs] returns
    the record's 'kwargs' entry and leaves the world alone, and
    [get_alg_model] (resp. [get_alg_dataset]) is one constructor call: the
    class of the 'model' (resp. 'dataset') entry, with the keyword arguments
    of a (class, kwargs) pair, or with none for a bare class. *)
Theorem get_alg_model_dataset_kwargs_from_record
    (alg_cls : AlgCls) (record : dict) (e : E) (log : list Call) :
  _settings !! alg_cls = Some (Some record) →
  (∃ kwargs, dict_get record "kwargs" = Some kwargs
             ∧ get_alg_kwargs E alg_cls (initial_world e log)
               = (Return kwargs, initial_world e log))
  ∧ (∃ entry cls kw,
       dict_get record "model" = Some entry
       ∧ stands_for entry cls kw
       ∧ get_alg_model E instantiate alg_cls (initial_world e log)
         = extcall (CallConstruct cls kw) (instantiate cls kw) (initial_world e log))
  ∧ (∃ entry cls kw,
       dict_get record "dataset" = Some entry
       ∧ stands_for entry cls kw
       ∧ get_alg_dataset E instantiate alg_cls (initial_world e log)
         = extcall (CallConstruct cls kw) (instantiate cls kw) (initial_world e log)).
Proof.
  intros Hrec.
  destruct (_settings_records alg_cls record Hrec)
    as ((kw & Hkw) & (m & mcls & mkw & Hm & Hmfor) & (d & dcls & dkw & Hd & Hdfor)).
  split; [ | split ].
  - exists (VDict kw). split; [ exact Hkw | ].
    rewrite get_alg_kwargs_run. cbn [globals initial_world].
    rewrite Hrec, Hkw. reflexivity.
  - exists m, mcls, mkw. split; [ exact Hm | ]. split; [ exact Hmfor | ].
    apply (get_alg_model_stands_for alg_cls record m mcls mkw); assumption.
  - exists d, dcls, dkw. split; [ exact Hd | ]. split; [ exact Hdfor | ].
    apply (get_alg_dataset_stands_for alg_cls record d dcls dkw); assumption.
Qed.

(** C5.  Whatever the table holds, a call of [get_alg_kwargs],
    [get_alg_model] or [get_alg_dataset] that returns was made on a class
    that is a key of the table and is not bound to [None]. *)
Theorem get_alg_returns_only_with_settings
    (alg_cls : AlgCls) (w : World (gmap AlgCls (option dict)) Call E) :
  returns (fst (get_alg_kwargs E alg_cls w))
  ∨ returns (fst (get_alg_model E instantiate alg_cls w))
  ∨ returns (fst (get_alg_dataset E instantiate alg_cls w)) →
  ∃ settings, globals w !! alg_cls = Some (Some settings).
Proof.
  intros Hret.
  destruct (globals w !! alg_cls) as [[settings|]|] eqn:Hrec; [ eauto | | ];
    exfalso.
  - assert (Hlacks : lacks_settings (globals w) alg_cls) by (right; exact Hrec).
    destruct Hret as [[v Hv]|[[v Hv]|[v Hv]]].
    + apply get_alg_kwargs_missing_iff in Hlacks. congruence.
    + apply get_alg_model_missing_iff in Hlacks. congruence.
    + apply get_alg_dataset_missing_iff in Hlacks. congruence.
  - assert (Hlacks : lacks_settings (globals w) alg_cls) by (left; exact Hrec).
    destruct Hret as [[v Hv]|[[v Hv]|[v Hv]]].
    + apply get_alg_kwargs_missing_iff in Hlacks. congruence.
    + apply get_alg_model_missing_iff in Hlacks. congruence.
    + apply get_alg_dataset_missing_iff in Hlacks. congruence.
Qed.

(** *** Frame lemmas *)

Lemma keeps_globals_ret {A} (a : A) :
  keeps_globals (ret a : M (gmap AlgCls (option dict)) Call E A).
Proof. intros w. reflexivity. Qed.

Lemma keeps_globals_raise {A} (x : exn) :
  keeps_globals (raise x : M (gmap AlgCls (option dict)) Call E A).
Proof. intros w. reflexivity. Qed.

Lemma keeps_globals_read :
  keeps_globals (read_globals : M (gmap AlgCls (option dict)) Call E _).
Proof. intros w. reflexivity. Qed.

Lemma keeps_globals_extcall {R} (c : Call) (f : E → (string + R) * E) :
  keeps_globals (extcall c f : M (gmap AlgCls (option dict)) Call E R).
Proof. intros w. unfold extcall. destruct (f (env w)). reflexivity. Qed.

Lemma keeps_globals_bind {A B} (m : M (gmap AlgCls (option dict)) Call E A)
    (k : A → M (gmap AlgCls (option dict)) Call E B) :
  keeps_globals m → (∀ a, keeps_globals (k a)) → keeps_globals (m ≫= k).
Proof.
  intros Hm Hk w. unfold mbind, M_bind, bind.
  specialize (Hm w). destruct (m w) as [[a|x] w1]; cbn [snd] in *.
  - rewrite Hk. exact Hm.
  - exact Hm.
Qed.

Lemma keeps_globals_getitem d key :
  keeps_globals (getitem d key : M (gmap AlgCls (option dict)) Call E PyVal).
Proof.
  unfold getitem. destruct (dict_get d key);
    [ apply keeps_globals_ret | apply keeps_globals_raise ].
Qed.

Lemma keeps_globals__get_alg_settings alg_cls :
  keeps_globals (_get_alg_settings E alg_cls).
Proof. intros w. rewrite _get_alg_settings_run. reflexivity. Qed.

Lemma keeps_globals_unpack_settings entry :
  keeps_globals (unpack_settings E entry).
Proof.
  destruct entry as [| | | | | | | xs | | | | | |];
    try apply keeps_globals_ret.
  destruct xs as [|cls [|kwargs [|? ?]]];
    first [ apply keeps_globals_ret | apply keeps_globals_raise ].
Qed.

Lemma keeps_globals_call_with_kwargs cls kwargs :
  keeps_globals (call_with_kwargs E instantiate cls kwargs).
Proof.
  unfold call_with_kwargs. destruct kwargs; try apply keeps_globals_raise.
  destruct (callable cls);
    [ apply keeps_globals_extcall | apply keeps_globals_raise ].
Qed.

Lemma keeps_globals_get_alg_kwargs alg_cls :
  keeps_globals (get_alg_kwargs E alg_cls).
Proof.
  apply keeps_globals_bind;
    [ apply keeps_globals__get_alg_settings | intros; apply keeps_globals_getitem ].
Qed.

Lemma keeps_globals_get_alg_model alg_cls :
  keeps_globals (get_alg_model E instantiate alg_cls).
Proof.
  apply keeps_globals_bind; [ apply keeps_globals__get_alg_settings | intros record ].
  apply keeps_globals_bind; [ apply keeps_globals_getitem | intros entry ].
  apply keeps_globals_bind; [ apply keeps_globals_unpack_settings | intros [cls kwargs] ].
  apply keeps_globals_call_with_kwargs.
Qed.

Lemma keeps_globals_get_alg_dataset alg_cls :
  keeps_globals (get_alg_dataset E instantiate alg_cls).
Proof.
  apply keeps_globals_bind; [ apply keeps_globals__get_alg_settings | intros record ].
  apply keeps_globals_bind; [ apply keeps_globals_getitem | intros entry ].
  apply keeps_globals_bind; [ apply keeps_globals_unpack_settings | intros [cls kwargs] ].
  apply keeps_globals_call_with_kwargs.
Qed.

Lemma keeps_globals_importorskip modname minversion reason :
  keeps_globals (importorskip E importable modname minversion reason).
Proof.
  apply keeps_globals_bind; [ apply keeps_globals_extcall | intros [|] ];
    [ apply keeps_globals_ret | apply keeps_globals_raise ].
Qed.

Lemma keeps_globals__settings_getitem alg_cls :
  keeps_globals (_settings_getitem E alg_cls).
Proof.
  apply keeps_globals_bind; [ apply keeps_globals_read | intros table ].
  destruct (table !! alg_cls);
    [ apply keeps_globals_ret | apply keeps_globals_raise ].
Qed.

Lemma keeps_globals_loop classes :
  ∀ ans, keeps_globals (get_algs_with_marks_loop E importable classes ans).
Proof.
  induction classes as [|alg_cls classes IH]; intros ans; cbn [get_algs_with_marks_loop].
  - apply keeps_globals_ret.
  - apply keeps_globals_bind; [ apply keeps_globals__settings_getitem | intros settings ].
    apply keeps_globals_bind; [ | intros []; apply IH ].
    destruct (bool_decide _);
      [ apply keeps_globals_importorskip | apply keeps_globals_ret ].
Qed.

Lemma keeps_globals_get_algs_with_marks :
  keeps_globals (get_algs_with_marks E get_module_subclasses importable).
Proof.
  apply keeps_globals_bind; [ apply keeps_globals_extcall | intros classes ].
  apply keeps_globals_loop.
Qed.

Lemma run_op_keeps_globals op (w : World (gmap AlgCls (option dict)) Call E) :
  globals (run_op E get_module_subclasses importable instantiate op w) = globals w.
Proof.
  destruct op; cbn [run_op].
  - apply keeps_globals_get_alg_kwargs.
  - apply keeps_globals_get_alg_model.
  - apply keeps_globals_get_alg_dataset.
  - apply keeps_globals_get_algs_with_marks.
Qed.

Lemma run_ops_keeps_globals ops :
  ∀ w : World (gmap AlgCls (option dict)) Call E,
    globals (run_ops E get_module_subclasses importable instantiate ops w) = globals w.
Proof.
  unfold run_ops.
  induction ops as [|op ops IH]; intros w; cbn [foldl]; [ reflexivity | ].
  rewrite IH. apply run_op_keeps_globals.
Qed.

(** C9.  After any sequence of calls to [get_alg_kwargs], [get_alg_model],
    [get_alg_dataset] and [get_algs_with_marks], returning or raising,
    against any environment, the settings table is the one the module
    defined. *)
Theorem settings_never_mutated (ops : list Op) (e : E) (log : list Call) :
  globals (run_ops E get_module_subclasses importable instantiate ops (initial_world e log))
  = _settings.
Proof. apply (run_ops_keeps_globals ops (initial_world e log)). Qed.

(** *** The loop of [get_algs_with_marks] *)

Lemma _settings_getitem_run alg_cls (w : World (gmap AlgCls (option dict)) Call E) :
  _settings_getitem E alg_cls w =
  (match globals w !! alg_cls with
   | Some settings => Return settings
   | None => Raise (KeyError (VAlg alg_cls))
   end, w).
Proof.
  unfold _settings_getitem. run.
  destruct (globals w !! alg_cls); reflexivity.
Qed.

Lemma importorskip_run modname minversion reason
    (w : World (gmap AlgCls (option dict)) Call E) :
  importorskip E importable modname minversion reason w =
  (if fst (importable modname minversion (env w))
   then Return () else Raise (Skipped reason),
   mkWorld (globals w) (snd (importable modname minversion (env w)))
     (calls w ++ [CallImportOrSkip modname minversion reason])).
Proof.
  unfold importorskip, extcall. run.
  destruct (importable modname minversion (env w)) as [[|] e']; reflexivity.
Qed.

(** What a returning loop returns: the entries it was given, then one entry
    per class, in order, each with the marks of its class. *)
Lemma get_algs_with_marks_loop_returns classes :
  ∀ ans (w w' : World (gmap AlgCls (option dict)) Call E) ans',
    get_algs_with_marks_loop E importable classes ans w = (Return ans', w') →
    ∃ new, ans' = ans ++ new ∧ Forall2 (param_for (globals w)) classes new.
Proof.
  induction classes as [|alg_cls classes IH]; intros ans w w' ans';
    cbn [get_algs_with_marks_loop].
  - intros [= <- <-]. exists []. rewrite app_nil_r. split; constructor.
  - unfold mbind at 1, M_bind at 1, bind at 1. rewrite _settings_getitem_run.
    destruct (globals w !! alg_cls) as [settings|] eqn:Hlook; [ | discriminate ].
    unfold mbind at 1, M_bind at 1, bind at 1.
    pose proof (keeps_globals_importorskip "torch" "1.10" "Pytorch 1.10 required." w) as Hkeep.
    destruct (bool_decide (alg_cls ∈ [CutMix; MixUp; LabelSmoothing])).
    + destruct (importorskip E importable _ _ _ w) as [[[]|x] w1]; [ | discriminate ].
      cbn [snd] in Hkeep. intros Hloop.
      destruct (IH _ _ _ _ Hloop) as (new & -> & Hnew).
      exists (param alg_cls (marks_for alg_cls settings) (__name__ alg_cls) :: new).
      rewrite <- app_assoc. split; [ reflexivity | ].
      constructor; [ exists settings; split; [ exact Hlook | reflexivity ] | ].
      rewrite <- Hkeep. exact Hnew.
    + unfold ret at 1. intros Hloop.
      destruct (IH _ _ _ _ Hloop) as (new & -> & Hnew).
      exists (param alg_cls (marks_for alg_cls settings) (__name__ alg_cls) :: new).
      rewrite <- app_assoc. split; [ reflexivity | ].
      constructor; [ exists settings; split; [ exact Hlook | reflexivity ] | exact Hnew ].
Qed.

(** When the loop does return: every class is a key of the table, and
    torch 1.10 can be imported if one of the three classes that ask for it
    comes up. *)
Lemma get_algs_with_marks_loop_total classes :
  ∀ ans (w : World (gmap AlgCls (option dict)) Call E),
    Forall (λ c, is_Some (globals w !! c)) classes →
    (Exists (λ c, c ∈ [CutMix; MixUp; LabelSmoothing]) classes →
     ∀ e, fst (importable "torch" "1.10" e) = true) →
    ∃ ans' w', get_algs_with_marks_loop E importable classes ans w = (Return ans', w').
Proof.
  induction classes as [|alg_cls classes IH]; intros ans w Hkeys Htorch;
    cbn [get_algs_with_marks_loop].
  - eexists _, _. reflexivity.
  - apply Forall_cons in Hkeys as [[settings Hlook] Hkeys].
    unfold mbind at 1, M_bind at 1, bind at 1.
    rewrite _settings_getitem_run, Hlook.
    unfold mbind at 1, M_bind at 1, bind at 1.
    destruct (bool_decide (alg_cls ∈ [CutMix; MixUp; LabelSmoothing])) eqn:Hin.
    + rewrite importorskip_run.
      apply bool_decide_eq_true in Hin.
      rewrite Htorch by (apply Exists_cons_hd; exact Hin).
      apply IH; [ exact Hkeys | ].
      intros Hex. apply Htorch. apply Exists_cons_tl. exact Hex.
    + unfold ret at 1. apply IH; [ exact Hkeys | ].
      intros Hex. apply Htorch. apply Exists_cons_tl. exact Hex.
Qed.

Lemma get_algs_with_marks_run classes e1 (w : World (gmap AlgCls (option dict)) Call E) :
  get_module_subclasses (env w) = (inr classes, e1) →
  get_algs_with_marks E get_module_subclasses importable w
  = get_algs_with_marks_loop E importable classes []
      (mkWorld (globals w) e1 (calls w ++ [CallGetModuleSubclasses])).
Proof.
  intros Hsub. unfold get_algs_with_marks, extcall. run. rewrite Hsub. reflexivity.
Qed.

Lemma param_for_values table classes ans :
  Forall2 (param_for table) classes ans →
  values <$> ans = classes ∧ id <$> ans = __name__ <$> classes.
Proof.
  induction 1 as [|c p classes ans (settings & _ & ->) _ [IHv IHi]]; [ split; reflexivity | ].
  cbn. rewrite IHv, IHi. split; reflexivity.
Qed.

(** The marks of one class. *)
Lemma marks_for_xfail alg_cls settings :
  (∃ reason, xfail reason ∈ marks_for alg_cls settings) ↔ settings = None.
Proof.
  unfold marks_for. split.
  - intros [reason Hin]. destruct settings as [record|]; [ exfalso | reflexivity ].
    destruct (bool_decide (alg_cls = SWA)), (bool_decide (alg_cls = MixUp));
      cbn in Hin; no_such_elem Hin.
  - intros ->. eexists. apply elem_of_app. right. apply list_elem_of_singleton. reflexivity.
Qed.

Lemma marks_for_filterwarnings alg_cls settings :
  (∃ pattern, filterwarnings pattern ∈ marks_for alg_cls settings)
  ↔ alg_cls = SWA ∨ alg_cls = MixUp.
Proof.
  unfold marks_for. split.
  - intros [pattern Hin].
    destruct (bool_decide (alg_cls = SWA)) eqn:Hswa;
      [ left; apply bool_decide_eq_true in Hswa; exact Hswa | ].
    destruct (bool_decide (alg_cls = MixUp)) eqn:Hmix;
      [ right; apply bool_decide_eq_true in Hmix; exact Hmix | ].
    exfalso. destruct settings; cbn in Hin; no_such_elem Hin.
  - intros [-> | ->]; eexists; destruct settings; cbn;
      apply elem_of_cons; left; reflexivity.
Qed.

Lemma marks_for_nil alg_cls record :
  alg_cls ≠ SWA → alg_cls ≠ MixUp → marks_for alg_cls (Some record) = [].
Proof.
  intros Hswa Hmix. unfold marks_for.
  rewrite !bool_decide_eq_false_2 by assumption. reflexivity.
Qed.

(** C2, as the code has it.  Let the reflection find [classes].  If every
    class found is a key of the settings table (bound to a record or to
    [None]) and torch 1.10 can be imported whenever CutMix, MixUp or
    LabelSmoothing is among them, [get_algs_with_marks] returns a list with
    exactly one entry per class found, in the order found, each carrying its
    class, the marks of its class and its [__name__] as id. *)
Theorem get_algs_with_marks_one_entry_per_class
    (w : World (gmap AlgCls (option dict)) Call E) (classes : list AlgCls) (e1 : E) :
  get_module_subclasses (env w) = (inr classes, e1) →
  Forall (λ c, is_Some (globals w !! c)) classes →
  (Exists (λ c, c ∈ [CutMix; MixUp; LabelSmoothing]) classes →
   ∀ e, fst (importable "torch" "1.10" e) = true) →
  ∃ ans,
    fst (get_algs_with_marks E get_module_subclasses importable w) = Return ans
    ∧ values <$> ans = classes
    ∧ id <$> ans = __name__ <$> classes
    ∧ Forall2 (param_for (globals w)) classes ans.
Proof.
  intros Hsub Hkeys Htorch.
  rewrite (get_algs_with_marks_run classes e1 w Hsub).
  destruct (get_algs_with_marks_loop_total classes []
              (mkWorld (globals w) e1 (calls w ++ [CallGetModuleSubclasses]))
              Hkeys Htorch) as (ans & w' & Hrun).
  exists ans. split; [ rewrite Hrun; reflexivity | ].
  apply get_algs_with_marks_loop_returns in Hrun as (new & -> & Hnew).
  cbn [globals app] in *.
  destruct (param_for_values _ _ _ Hnew) as [Hv Hi].
  split; [ exact Hv | ]. split; [ exact Hi | exact Hnew ].
Qed.

(** C3.  In a list returned by [get_algs_with_marks] there is one entry per
    class found, and in each entry: an xfail mark is present exactly when
    the class is bound to [None] in the table; a filterwarnings mark is
    present exactly when the class is SWA or MixUp themselves; and a class
    that is neither of these carries no mark at all. *)
Theorem get_algs_with_marks_marks
    (w : World (gmap AlgCls (option dict)) Call E) (classes : list AlgCls) (e1 : E)
    (ans : list Param) :
  get_module_subclasses (env w) = (inr classes, e1) →
  fst (get_algs_with_marks E get_module_subclasses importable w) = Return ans →
  values <$> ans = classes
  ∧ Forall (λ p,
      ((∃ reason, xfail reason ∈ marks p) ↔ globals w !! values p = Some None)
      ∧ ((∃ pattern, filterwarnings pattern ∈ marks p)
         ↔ values p = SWA ∨ values p = MixUp)
      ∧ (values p ≠ SWA → values p ≠ MixUp → globals w !! values p ≠ Some None →
         marks p = [])) ans.
Proof.
  intros Hsub Hrun.
  rewrite (get_algs_with_marks_run classes e1 w Hsub) in Hrun.
  destruct (get_algs_with_marks_loop E importable classes [] _) as [o w'] eqn:Hloop.
  cbn [fst] in Hrun. subst o.
  apply get_algs_with_marks_loop_returns in Hloop as (new & -> & Hnew).
  cbn [globals app] in *.
  split; [ apply (param_for_values _ _ _ Hnew) | ].
  clear Hsub. induction Hnew as [|c p classes ans (settings & Hlook & ->) _ IH];
    constructor; [ | exact IH ].
  cbn [values marks]. rewrite Hlook. split; [ | split ].
  - rewrite marks_for_xfail. split; [ intros ->; reflexivity | intros [= ->]; reflexivity ].
  - apply marks_for_filterwarnings.
  - intros Hswa Hmix Hnone. destruct settings as [record|]; [ | congruence ].
    apply marks_for_nil; assumption.
Qed.

End RegistryFacts.

(** *** The registry on concrete inputs *)

Section RegistryExamples.
Import Registry RegistryOps.

Lemma get_alg_raises_iff_missing_witness :
  ¬ lacks_settings _settings StochasticDepth
  ∧ returns (fst (get_alg_kwargs N StochasticDepth (initial_world 0%N [])))
  ∧ lacks_settings _settings Alibi
  ∧ fst (get_alg_kwargs N Alibi (initial_world 0%N []))
    = Raise (ValueError "Algorithm Alibi not in the settings dictionary.")
  ∧ lacks_settings _settings (OtherAlg "AGC")
  ∧ fst (get_alg_dataset N test_instantiate (OtherAlg "AGC") (initial_world 0%N []))
    = Raise (ValueError "Algorithm AGC not in the settings dictionary.").
Proof.
  assert (Hpresent : ¬ lacks_settings _settings StochasticDepth)
    by (intros [H|H]; vm_compute in H; discriminate H).
  assert (HAlibi : lacks_settings _settings Alibi)
    by (right; vm_compute; reflexivity).
  assert (Hother : lacks_settings _settings (OtherAlg "AGC"))
    by (left; vm_compute; reflexivity).
  split; [ exact Hpresent | ].
  split; [ | split; [ exact HAlibi | split; [ | split; [ exact Hother | ] ] ] ].
  - exact (proj1 (proj2 (proj2 (proj2 (proj2
             (get_alg_raises_iff_missing N test_instantiate StochasticDepth 0%N []))))
             Hpresent)).
  - exact (proj1 (proj1 (proj2 (proj2 (proj2
             (get_alg_raises_iff_missing N test_instantiate Alibi 0%N [])))) HAlibi)).
  - exact (proj2 (proj2 (proj1 (proj2 (proj2 (proj2
             (get_alg_raises_iff_missing N test_instantiate (OtherAlg "AGC") 0%N []))))
             Hother))).
Defined.

Lemma get_alg_model_dataset_kwargs_from_record_witness :
  _settings !! Factorize = Some (Some simple_resnet_settings)
  ∧ (∃ kwargs, dict_get simple_resnet_settings "kwargs" = Some kwargs
               ∧ get_alg_kwargs N Factorize (initial_world 0%N [])
                 = (Return kwargs, initial_world 0%N []))
  ∧ (∃ entry cls kw,
       dict_get simple_resnet_settings "model" = Some entry
       ∧ stands_for entry cls kw
       ∧ get_alg_model N test_instantiate Factorize (initial_world 0%N [])
         = extcall (CallConstruct cls kw) (test_instantiate cls kw) (initial_world 0%N []))
  ∧ (∃ entry cls kw,
       dict_get simple_resnet_settings "dataset" = Some entry
       ∧ stands_for entry cls kw
       ∧ get_alg_dataset N test_instantiate Factorize (initial_world 0%N [])
         = extcall (CallConstruct cls kw) (test_instantiate cls kw) (initial_world 0%N [])).
Proof.
  split; [ vm_compute; reflexivity | ].
  apply (get_alg_model_dataset_kwargs_from_record
           N test_instantiate Factorize simple_resnet_settings 0%N []).
  vm_compute. reflexivity.
Defined.

Lemma get_alg_returns_only_with_settings_witness :
  (returns (fst (get_alg_kwargs N BlurPool test_world))
   ∨ returns (fst (get_alg_model N test_instantiate BlurPool test_world))
   ∨ returns (fst (get_alg_dataset N test_instantiate BlurPool test_world)))
  ∧ ∃ settings, globals test_world !! BlurPool = Some (Some settings).
Proof.
  assert (Hret : returns (fst (get_alg_kwargs N BlurPool test_world))
                 ∨ returns (fst (get_alg_model N test_instantiate BlurPool test_world))
                 ∨ returns (fst (get_alg_dataset N test_instantiate BlurPool test_world))).
  { left. exists (VDict [("min_channels", VInt 0)]). vm_compute. reflexivity. }
  split; [ exact Hret | ].
  exact (get_alg_returns_only_with_settings N test_instantiate BlurPool test_world Hret).
Defined.

(** Every imported class is a key of [_settings]. *)
Lemma imported_algorithms_are_keys :
  Forall (λ c, is_Some (_settings !! c)) imported_algorithms.
Proof. repeat constructor; vm_compute; eauto. Defined.

Lemma get_algs_with_marks_one_entry_per_class_witness :
  test_subclasses imported_algorithms (env test_world) = (inr imported_algorithms, 0%N)
  ∧ Forall (λ c, is_Some (globals test_world !! c)) imported_algorithms
  ∧ ∃ ans,
      fst (get_algs_with_marks N (test_subclasses imported_algorithms) (test_importable true)
             test_world) = Return ans
      ∧ values <$> ans = imported_algorithms
      ∧ id <$> ans = __name__ <$> imported_algorithms
      ∧ Forall2 (param_for (globals test_world)) imported_algorithms ans.
Proof.
  split; [ reflexivity | ].
  split; [ exact imported_algorithms_are_keys | ].
  apply (get_algs_with_marks_one_entry_per_class
           N (test_subclasses imported_algorithms) (test_importable true)
           test_world imported_algorithms 0%N).
  - reflexivity.
  - exact imported_algorithms_are_keys.
  - intros _ e. reflexivity.
Defined.

Lemma get_algs_with_marks_marks_witness :
  ∃ ans,
    fst (get_algs_with_marks N (test_subclasses imported_algorithms) (test_importable true)
           test_world) = Return ans
    ∧ values <$> ans = imported_algorithms
    ∧ Forall (λ p,
        ((∃ reason, xfail reason ∈ marks p) ↔ globals test_world !! values p = Some None)
        ∧ ((∃ pattern, filterwarnings pattern ∈ marks p)
           ↔ values p = SWA ∨ values p = MixUp)
        ∧ (values p ≠ SWA → values p ≠ MixUp →
           globals test_world !! values p ≠ Some None → marks p = [])) ans.
Proof.
  eexists. split; [ vm_compute; reflexivity | ].
  apply (get_algs_with_marks_marks
           N (test_subclasses imported_algorithms) (test_importable true)
           test_world imported_algorithms 0%N).
  - reflexivity.
  - vm_compute. reflexivity.
Defined.

(** What the returned list looks like on the imported classes: xfail on
    Alibi and SeqLengthWarmup, one filterwarnings mark each on SWA and
    MixUp, nothing elsewhere. *)
Example get_algs_with_marks_imported :
  (λ p, (values p, marks p)) <$>
    match fst (get_algs_with_marks N (test_subclasses [AGC; SWA; Alibi; MixUp; SeqLengthWarmup])
                 (test_importable true) test_world) with
    | Return ans => ans
    | Raise _ => []
    end
  = [ (AGC, []);
      (SWA, [filterwarnings swa_warning]);
      (Alibi, [xfail "Algorithm Alibi is missing settings."]);
      (MixUp, [filterwarnings mixup_warning]);
      (SeqLengthWarmup, [xfail "Algorithm SeqLengthWarmup is missing settings."]) ].
Proof. vm_compute. reflexivity. Qed.

(** C2, as the claim states it, fails.  A subclass of [Algorithm] that is
    not a key of [_settings] makes [_settings[alg_cls]] raise [KeyError], so
    no list is returned; and where torch 1.10 cannot be imported, reaching
    CutMix raises pytest's [Skipped]. *)
Lemma get_algs_with_marks_can_fail :
  fst (get_algs_with_marks N
         (test_subclasses (imported_algorithms ++ [OtherAlg "NewAlgorithm"]))
         (test_importable true) test_world)
  = Raise (KeyError (VAlg (OtherAlg "NewAlgorithm")))
  ∧ ¬ returns (fst (get_algs_with_marks N
                      (test_subclasses (imported_algorithms ++ [OtherAlg "NewAlgorithm"]))
                      (test_importable true) test_world))
  ∧ fst (get_algs_with_marks N (test_subclasses imported_algorithms)
           (test_importable false) test_world)
    = Raise (Skipped "Pytorch 1.10 required.").
Proof.
  split; [ vm_compute; reflexivity | ].
  split; [ | vm_compute; reflexivity ].
  intros [ans Hans]. vm_compute in Hans. discriminate Hans.
Qed.

(** A run of all four operations, raising ones included, from the world of
    a fresh import. *)
Example run_ops_example :
  globals (run_ops N (test_subclasses (imported_algorithms ++ [OtherAlg "NewAlgorithm"]))
             (test_importable false) test_instantiate
             [OpKwargs SWA; OpModel Alibi; OpMarks; OpDataset GhostBatchNorm; OpModel (OtherAlg "X")]
             test_world)
  = _settings
  ∧ calls (run_ops N (test_subclasses imported_algorithms)
             (test_importable true) test_instantiate
             [OpKwargs SWA; OpModel Alibi; OpDataset GhostBatchNorm; OpModel AGC]
             test_world)
    = [ CallConstruct (VClass RandomImageDataset) [("shape", VTuple [VInt 3; VInt 224; VInt 224])];
        CallConstruct (VClass SimpleConvModel) [] ].
Proof.
  split; [ apply (run_ops_keeps_globals N) | vm_compute; reflexivity ].
Qed.

End RegistryExamples.

(** ** MNISTDatasetHparams.initialize_object *)

Section MnistFacts.
Import Mnist.
Variable E : Type.
Variable extern : Call → E → (string + PyVal) * E.

(** With [use_synthetic] set, [initialize_object] is three calls in a row,
    each made only if the one before returned. *)
Lemma initialize_object_synthetic self batch_size dataloader_hparams
    (w : World unit Call E) :
  use_synthetic self = true →
  initialize_object E extern self batch_size dataloader_hparams w
  = (dataset ← call E extern
       (SyntheticBatchPairDataset (if is_train self then 60000 else 10000)
          [1; 28; 28]%Z 10 (synthetic_num_unique_samples self)
          (synthetic_device self) (synthetic_memory_format self));
     sampler ← call E extern (get_sampler dataset (drop_last self) (shuffle self));
     call E extern (DataLoaderHparams_initialize_object
                      dataloader_hparams dataset batch_size sampler (drop_last self))) w.
Proof. intros Hsyn. unfold initialize_object. rewrite Hsyn. reflexivity. Qed.

(** The log of such a run: the synthetic dataset, then the sampler and the
    dataloader made from it. *)
Lemma initialize_object_synthetic_calls self batch_size dataloader_hparams
    (w : World unit Call E) :
  use_synthetic self = true →
  ∃ rest,
    calls (snd (initialize_object E extern self batch_size dataloader_hparams w))
    = calls w
        ++ SyntheticBatchPairDataset (if is_train self then 60000 else 10000)
             [1; 28; 28]%Z 10 (synthetic_num_unique_samples self)
             (synthetic_device self) (synthetic_memory_format self)
        :: rest
    ∧ Forall (λ c, constructs_dataset c = false) rest
    ∧ (∀ x, fst (initialize_object E extern self batch_size dataloader_hparams w)
            ≠ Raise (ValueError x)).
Proof.
  intros Hsyn. rewrite initialize_object_synthetic by exact Hsyn.
  unfold call, extcall. run.
  destruct (extern _ (env w)) as [[x|dataset] e1]; cbn [answer env globals calls].
  { exists []. cbn [snd calls]. repeat split; [ constructor | discriminate ]. }
  destruct (extern _ e1) as [[x|sampler] e2]; cbn [answer env globals calls].
  { eexists [_]. cbn [snd calls]. rewrite <- app_assoc.
    repeat split; [ repeat constructor | discriminate ]. }
  destruct (extern _ e2) as [[x|loader] e3]; cbn [answer env globals calls snd fst];
    eexists [_; _]; rewrite <- !app_assoc;
    (repeat split; [ repeat constructor | discriminate ]).
Qed.

(** C6.  With [use_synthetic] set, [initialize_object] does the same
    whatever [datadir] and [download] hold, raises no [ValueError], and
    makes no call to [datasets.MNIST]; its first call builds the synthetic
    dataset.  With [use_synthetic] unset and [datadir] equal to [None], it
    raises [ValueError("datadir is required if synthetic is False")]
    having made no call at all. *)
Theorem initialize_object_synthetic_needs_no_datadir
    (self : MNISTDatasetHparams) (batch_size : Z) (dataloader_hparams : PyVal)
    (w : World unit Call E) :
  (use_synthetic self = true →
   (∀ datadir' download',
      initialize_object E extern (with_datadir_download self datadir' download')
        batch_size dataloader_hparams w
      = initialize_object E extern self batch_size dataloader_hparams w)
   ∧ (∀ msg, fst (initialize_object E extern self batch_size dataloader_hparams w)
             ≠ Raise (ValueError msg))
   ∧ ∃ first rest,
       calls (snd (initialize_object E extern self batch_size dataloader_hparams w))
       = calls w ++ first :: rest
       ∧ constructs_dataset first = true
       ∧ is_MNIST first = false
       ∧ Forall (λ c, constructs_dataset c = false) rest)
  ∧ (use_synthetic self = false → datadir self = None →
     initialize_object E extern self batch_size dataloader_hparams w
     = (Raise (ValueError "datadir is required if synthetic is False"), w)).
Proof.
  split.
  - intros Hsyn. split; [ | split ].
    + intros datadir' download'.
      rewrite !initialize_object_synthetic by exact Hsyn. reflexivity.
    + destruct (initialize_object_synthetic_calls self batch_size dataloader_hparams w Hsyn)
        as (rest & _ & _ & Hnone).
      exact Hnone.
    + destruct (initialize_object_synthetic_calls self batch_size dataloader_hparams w Hsyn)
        as (rest & Hcalls & Hrest & _).
      eexists _, rest. split; [ exact Hcalls | ].
      split; [ reflexivity | ]. split; [ reflexivity | exact Hrest ].
  - intros Hsyn Hdir. unfold initialize_object. rewrite Hsyn, Hdir. reflexivity.
Qed.

(** C8.  With [use_synthetic] set, the one dataset [initialize_object]
    builds is a [SyntheticBatchPairDataset] asked for 60000 samples when
    [is_train] holds and for 10000 otherwise, of shape [1, 28, 28], with 10
    classes; it is this dataset that goes to the sampler. *)
Theorem initialize_object_synthetic_size
    (self : MNISTDatasetHparams) (batch_size : Z) (dataloader_hparams : PyVal)
    (w : World unit Call E) :
  use_synthetic self = true →
  ∃ total_dataset_size rest,
    calls (snd (initialize_object E extern self batch_size dataloader_hparams w))
    = calls w
        ++ SyntheticBatchPairDataset total_dataset_size [1; 28; 28]%Z 10
             (synthetic_num_unique_samples self) (synthetic_device self)
             (synthetic_memory_format self)
        :: rest
    ∧ (is_train self = true → total_dataset_size = 60000%Z)
    ∧ (is_train self = false → total_dataset_size = 10000%Z)
    ∧ Forall (λ c, constructs_dataset c = false) rest
    ∧ (∀ dataset e1,
         extern (SyntheticBatchPairDataset total_dataset_size [1; 28; 28]%Z 10
                   (synthetic_num_unique_samples self) (synthetic_device self)
                   (synthetic_memory_format self)) (env w) = (inr dataset, e1) →
         head rest = Some (get_sampler dataset (drop_last self) (shuffle self))).
Proof.
  intros Hsyn.
  exists (if is_train self then 60000%Z else 10000%Z).
  destruct (initialize_object_synthetic_calls self batch_size dataloader_hparams w Hsyn)
    as (rest & Hcalls & Hrest & _).
  exists rest. split; [ exact Hcalls | ].
  split; [ intros ->; reflexivity | ]. split; [ intros ->; reflexivity | ].
  split; [ exact Hrest | ].
  intros dataset e1 Hext.
  rewrite initialize_object_synthetic in Hcalls by exact Hsyn.
  unfold call, extcall in Hcalls. run. rewrite Hext in Hcalls.
  cbn [answer env globals calls] in Hcalls.
  destruct (extern _ e1) as [[x|sampler] e2]; cbn [answer env globals calls] in Hcalls.
  { cbn [snd calls] in Hcalls. rewrite <- app_assoc in Hcalls.
    apply app_inv_head in Hcalls. injection Hcalls as <-. reflexivity. }
  destruct (extern _ e2) as [[x|loader] e3];
    cbn [answer env globals calls snd] in Hcalls;
    rewrite <- !app_assoc in Hcalls;
    apply app_inv_head in Hcalls; injection Hcalls as <-; reflexivity.
Qed.

End MnistFacts.

Section MnistExamples.
Import Mnist.

Lemma initialize_object_synthetic_needs_no_datadir_witness :
  use_synthetic (synthetic_hparams true) = true
  ∧ initialize_object N test_extern
      (with_datadir_download (synthetic_hparams true) (Some "/datasets/mnist") false)
      64 (VObj 7) test_world
    = initialize_object N test_extern (synthetic_hparams true) 64 (VObj 7) test_world
  ∧ use_synthetic real_hparams_without_datadir = false
  ∧ datadir real_hparams_without_datadir = None
  ∧ initialize_object N test_extern real_hparams_without_datadir 64 (VObj 7) test_world
    = (Raise (ValueError "datadir is required if synthetic is False"), test_world).
Proof.
  split; [ reflexivity | ].
  split.
  { apply (proj1 (initialize_object_synthetic_needs_no_datadir
                    N test_extern (synthetic_hparams true) 64 (VObj 7) test_world)).
    reflexivity. }
  split; [ reflexivity | ]. split; [ reflexivity | ].
  apply (proj2 (initialize_object_synthetic_needs_no_datadir
                  N test_extern real_hparams_without_datadir 64 (VObj 7) test_world));
    reflexivity.
Defined.

Lemma initialize_object_synthetic_size_witness :
  use_synthetic (synthetic_hparams false) = true
  ∧ ∃ total_dataset_size rest,
      calls (snd (initialize_object N test_extern (synthetic_hparams false) 64 (VObj 7)
                    test_world))
      = calls test_world
          ++ SyntheticBatchPairDataset total_dataset_size [1; 28; 28]%Z 10
               (synthetic_num_unique_samples (synthetic_hparams false))
               (synthetic_device (synthetic_hparams false))
               (synthetic_memory_format (synthetic_hparams false))
          :: rest
      ∧ (is_train (synthetic_hparams false) = true → total_dataset_size = 60000%Z)
      ∧ (is_train (synthetic_hparams false) = false → total_dataset_size = 10000%Z)
      ∧ Forall (λ c, constructs_dataset c = false) rest
      ∧ (∀ dataset e1,
           test_extern
             (SyntheticBatchPairDataset total_dataset_size [1; 28; 28]%Z 10
                (synthetic_num_unique_samples (synthetic_hparams false))
                (synthetic_device (synthetic_hparams false))
                (synthetic_memory_format (synthetic_hparams false)))
             (env test_world) = (inr dataset, e1) →
           head rest = Some (get_sampler dataset (drop_last (synthetic_hparams false))
                               (shuffle (synthetic_hparams false)))).
Proof.
  split; [ reflexivity | ].
  apply (initialize_object_synthetic_size
           N test_extern (synthetic_hparams false) 64 (VObj 7) test_world).
  reflexivity.
Defined.

(** The calls of a synthetic training run and of a synthetic evaluation
    run, and those of a run on real data. *)
Example initialize_object_synthetic_train :
  initialize_object N test_extern (synthetic_hparams true) 64 (VObj 7) test_world
  = (Return (VObj 2),
     mkWorld () 3%N
       [ SyntheticBatchPairDataset 60000 [1; 28; 28]%Z 10
           (VInt 100) (VStr "cpu") (VStr "contiguous_format");
         get_sampler (VObj 0) true true;
         DataLoaderHparams_initialize_object (VObj 7) (VObj 0) 64 (VObj 1) true ]).
Proof. vm_compute. reflexivity. Qed.

Example initialize_object_synthetic_eval :
  calls (snd (initialize_object N test_extern (synthetic_hparams false) 64 (VObj 7) test_world))
  = [ SyntheticBatchPairDataset 10000 [1; 28; 28]%Z 10
        (VInt 100) (VStr "cpu") (VStr "contiguous_format");
      get_sampler (VObj 0) true true;
      DataLoaderHparams_initialize_object (VObj 7) (VObj 0) 64 (VObj 1) true ].
Proof. vm_compute. reflexivity. Qed.

Example initialize_object_real_data :
  calls (snd (initialize_object N test_extern
                (with_datadir_download real_hparams_without_datadir (Some "/datasets/mnist") true)
                64 (VObj 7) test_world))
  = [ ToTensor;
      Compose [VObj 0];
      MNIST "/datasets/mnist" true true (VObj 1);
      get_sampler (VObj 2) true true;
      DataLoaderHparams_initialize_object (VObj 7) (VObj 2) 64 (VObj 3) true ].
Proof. vm_compute. reflexivity. Qed.

End MnistExamples.

(** ** ensure_tuple *)

Section IterHelpersFacts.
Import IterHelpers.

Lemma range_items_upto (n : nat) :
  range_items 0 (Z.of_nat n) 1 = (λ i : nat, VInt (Z.of_nat i)) <$> seq 0 n.
Proof.
  unfold range_items, range_len. cbn [Z.ltb Z.compare].
  replace (Z.of_nat n - 0 + 1 - 1)%Z with (Z.of_nat n) by lia.
  rewrite Z.div_1_r, Z.max_r by lia. rewrite Nat2Z.id.
  apply list_fmap_ext. intros _ i _. f_equal. lia.
Qed.

(** C7.  [ensure_tuple] sends [None] to the empty tuple; a [str], [bytes]
    or [bytearray] to the one-element tuple holding it; a [tuple], [list] or
    [range] to the tuple of its elements in order ([range(n)] to
    [(0, ..., n-1)]); a [dict] to the tuple of its values in order; and
    every other object to the one-element tuple holding it. *)
Theorem ensure_tuple_cases :
  ensure_tuple VNone = VTuple []
  ∧ (∀ s, ensure_tuple (VStr s) = VTuple [VStr s])
  ∧ (∀ bs, ensure_tuple (VBytes bs) = VTuple [VBytes bs])
  ∧ (∀ bs, ensure_tuple (VByteArray bs) = VTuple [VByteArray bs])
  ∧ (∀ xs, ensure_tuple (VTuple xs) = VTuple xs)
  ∧ (∀ xs, ensure_tuple (VList xs) = VTuple xs)
  ∧ (∀ start stop step,
       ensure_tuple (VRange start stop step) = VTuple (range_items start stop step))
  ∧ (∀ n : nat,
       ensure_tuple (VRange 0 (Z.of_nat n) 1)
       = VTuple ((λ i : nat, VInt (Z.of_nat i)) <$> seq 0 n))
  ∧ (∀ items, ensure_tuple (VDict items) = VTuple (snd <$> items))
  ∧ (∀ x,
       x ≠ VNone → (∀ s, x ≠ VStr s) → (∀ bs, x ≠ VBytes bs) →
       (∀ bs, x ≠ VByteArray bs) → (∀ xs, x ≠ VTuple xs) → (∀ xs, x ≠ VList xs) →
       (∀ start stop step, x ≠ VRange start stop step) → (∀ items, x ≠ VDict items) →
       ensure_tuple x = VTuple [x]).
Proof.
  do 7 (split; [ reflexivity | ]).
  split; [ intros n; cbn [ensure_tuple]; rewrite range_items_upto; reflexivity | ].
  split; [ reflexivity | ].
  intros x HNone HStr HBytes HByteArray HTuple HList HRange HDict.
  destruct x as [| | | | s | bs | bs | xs | xs | start stop step | items | | |];
    try reflexivity; exfalso.
  - apply HNone. reflexivity.
  - apply (HTuple xs). reflexivity.
  - apply (HList xs). reflexivity.
  - apply (HRange start stop step). reflexivity.
  - apply (HDict items). reflexivity.
Qed.

Lemma ensure_tuple_cases_witness :
  ensure_tuple (VInt 5) = VTuple [VInt 5]
  ∧ ensure_tuple (VRange 0 (Z.of_nat 3) 1) = VTuple [VInt 0; VInt 1; VInt 2].
Proof.
  split.
  - apply (proj2 (proj2 (proj2 (proj2 (proj2 (proj2 (proj2 (proj2 (proj2
             ensure_tuple_cases))))))))); intros; discriminate.
  - exact (proj1 (proj2 (proj2 (proj2 (proj2 (proj2 (proj2 (proj2
             ensure_tuple_cases))))))) 3%nat).
Defined.

(** The assertions of [tests/utils/test_iter_helpers.py]. *)
Example test_none_to_tuple : ensure_tuple VNone = VTuple [].
Proof. reflexivity. Qed.

Example test_str_to_tuple :
  Forall (λ x, ensure_tuple x = VTuple [x])
    [VStr "test"; VBytes b_test; VByteArray b_test].
Proof. repeat constructor. Qed.

Example test_seq_to_tuple :
  Forall (λ x, ensure_tuple x = VTuple [VInt 0; VInt 1; VInt 2])
    [VTuple [VInt 0; VInt 1; VInt 2]; VList [VInt 0; VInt 1; VInt 2]; VRange 0 3 1].
Proof. repeat constructor. Qed.

Example test_dict_to_tuple :
  ensure_tuple (VDict [("t", VInt 1); ("e", VInt 2); ("s", VInt 3)])
  = VTuple [VInt 1; VInt 2; VInt 3].
Proof. reflexivity. Qed.

Example test_obj_to_tuple :
  Forall (λ x, ensure_tuple x = VTuple [x]) [torch_arange_3; np_arange_3].
Proof. repeat constructor. Qed.

End IterHelpersFacts.

(** * Further properties *)

(** ** The getters of the registry, on any table *)

Section RegistryGetters.
Import Registry RegistryOps.
Variable E : Type.
Variable instantiate : PyVal → dict → E → (string + PyVal) * E.

(** Unpacking an entry and calling what it names either fails in the
    registry's own code, before anything is called, or is one constructor
    call. *)
Lemma construct_cases entry (w : World (gmap AlgCls (option dict)) Call E) :
  (∃ x, (∀ repr, x ≠ External repr)
        ∧ (unpack_settings E entry
             ≫= λ '(cls, kwargs), call_with_kwargs E instantiate cls kwargs) w
          = (Raise x, w))
  ∨ (∃ cls kw,
       (unpack_settings E entry
          ≫= λ '(cls, kwargs), call_with_kwargs E instantiate cls kwargs) w
       = extcall (CallConstruct cls kw) (instantiate cls kw) w).
Proof.
  assert (Hcall : ∀ cls kwargs,
    (∃ x, (∀ repr, x ≠ External repr)
          ∧ call_with_kwargs E instantiate cls kwargs w = (Raise x, w))
    ∨ (∃ cls' kw, call_with_kwargs E instantiate cls kwargs w
                  = extcall (CallConstruct cls' kw) (instantiate cls' kw) w)).
  { intros cls kwargs. unfold call_with_kwargs.
    destruct kwargs as [| | | | | | | | | | kw | | |];
      try (left; eexists; split; [ | reflexivity ]; intros repr; discriminate).
    destruct (callable cls).
    - right. exists cls, kw. reflexivity.
    - left. eexists. split; [ | reflexivity ]. intros repr; discriminate. }
  destruct entry as [| | | | | | | xs | | | | | |]; try apply Hcall.
  destruct xs as [|cls [|kwargs [|? ?]]]; try apply Hcall;
    left; eexists; (split; [ | reflexivity ]); intros repr; discriminate.
Qed.

Lemma get_alg_model_run alg_cls (w : World (gmap AlgCls (option dict)) Call E) :
  get_alg_model E instantiate alg_cls w =
  match globals w !! alg_cls with
  | Some (Some record) =>
      match dict_get record "model" with
      | Some entry =>
          (unpack_settings E entry
             ≫= λ '(cls, kwargs), call_with_kwargs E instantiate cls kwargs) w
      | None => (Raise (KeyError (VStr "model")), w)
      end
  | _ => (Raise (missing_settings_error alg_cls), w)
  end.
Proof.
  unfold get_alg_model. unfold mbind at 1, M_bind at 1, bind at 1.
  rewrite _get_alg_settings_run.
  destruct (globals w !! alg_cls) as [[record|]|]; try reflexivity.
  unfold mbind at 1, M_bind at 1, bind at 1. unfold getitem.
  destruct (dict_get record "model"); reflexivity.
Qed.

Lemma get_alg_dataset_run alg_cls (w : World (gmap AlgCls (option dict)) Call E) :
  get_alg_dataset E instantiate alg_cls w =
  match globals w !! alg_cls with
  | Some (Some record) =>
      match dict_get record "dataset" with
      | Some entry =>
          (unpack_settings E entry
             ≫= λ '(cls, kwargs), call_with_kwargs E instantiate cls kwargs) w
      | None => (Raise (KeyError (VStr "dataset")), w)
      end
  | _ => (Raise (missing_settings_error alg_cls), w)
  end.
Proof.
  unfold get_alg_dataset. unfold mbind at 1, M_bind at 1, bind at 1.
  rewrite _get_alg_settings_run.
  destruct (globals w !! alg_cls) as [[record|]|]; try reflexivity.
  unfold mbind at 1, M_bind at 1, bind at 1. unfold getitem.
  destruct (dict_get record "dataset"); reflexivity.
Qed.

Lemma get_alg_model_cases alg_cls (w : World (gmap AlgCls (option dict)) Call E) :
  (∃ x, (∀ repr, x ≠ External repr)
        ∧ get_alg_model E instantiate alg_cls w = (Raise x, w))
  ∨ (∃ cls kw, get_alg_model E instantiate alg_cls w
               = extcall (CallConstruct cls kw) (instantiate cls kw) w).
Proof.
  rewrite get_alg_model_run.
  destruct (globals w !! alg_cls) as [[record|]|];
    try (left; eexists; split; [ | reflexivity ]; intros repr; discriminate).
  destruct (dict_get record "model") as [entry|]; [ apply construct_cases | ].
  left. eexists. split; [ | reflexivity ]. intros repr; discriminate.
Qed.

Lemma get_alg_dataset_cases alg_cls (w : World (gmap AlgCls (option dict)) Call E) :
  (∃ x, (∀ repr, x ≠ External repr)
        ∧ get_alg_dataset E instantiate alg_cls w = (Raise x, w))
  ∨ (∃ cls kw, get_alg_dataset E instantiate alg_cls w
               = extcall (CallConstruct cls kw) (instantiate cls kw) w).
Proof.
  rewrite get_alg_dataset_run.
  destruct (globals w !! alg_cls) as [[record|]|];
    try (left; eexists; split; [ | reflexivity ]; intros repr; discriminate).
  destruct (dict_get record "dataset") as [entry|]; [ apply construct_cases | ].
  left. eexists. split; [ | reflexivity ]. intros repr; discriminate.
Qed.

(** X1.  Whatever the table holds: [get_alg_kwargs] calls nothing outside
    the module and leaves the world as it was; [get_alg_model] and
    [get_alg_dataset] either raise an error of the registry's own with the
    world as it was, or are exactly one constructor call, whose outcome is
    theirs. *)
Theorem get_alg_at_most_one_constructor_call
    (alg_cls : AlgCls) (w : World (gmap AlgCls (option dict)) Call E) :
  snd (get_alg_kwargs E alg_cls w) = w
  ∧ ((∃ x, (∀ repr, x ≠ External repr)
           ∧ get_alg_model E instantiate alg_cls w = (Raise x, w))
     ∨ (∃ cls kw, get_alg_model E instantiate alg_cls w
                  = extcall (CallConstruct cls kw) (instantiate cls kw) w))
  ∧ ((∃ x, (∀ repr, x ≠ External repr)
           ∧ get_alg_dataset E instantiate alg_cls w = (Raise x, w))
     ∨ (∃ cls kw, get_alg_dataset E instantiate alg_cls w
                  = extcall (CallConstruct cls kw) (instantiate cls kw) w)).
Proof.
  split; [ rewrite get_alg_kwargs_run; reflexivity | ].
  split; [ apply get_alg_model_cases | apply get_alg_dataset_cases ].
Qed.

(** X2.  A record that lacks the key a getter subscripts makes that getter
    raise [KeyError] of the key, with nothing called; a 'model' or 'dataset'
    entry that is a tuple of any length other than two makes the unpacking
    raise [ValueError], with nothing called. *)
Theorem get_alg_malformed_record
    (alg_cls : AlgCls) (record : dict) (w : World (gmap AlgCls (option dict)) Call E) :
  globals w !! alg_cls = Some (Some record) →
  (dict_get record "kwargs" = None →
   get_alg_kwargs E alg_cls w = (Raise (KeyError (VStr "kwargs")), w))
  ∧ (dict_get record "model" = None →
     get_alg_model E instantiate alg_cls w = (Raise (KeyError (VStr "model")), w))
  ∧ (dict_get record "dataset" = None →
     get_alg_dataset E instantiate alg_cls w = (Raise (KeyError (VStr "dataset")), w))
  ∧ (∀ xs, dict_get record "model" = Some (VTuple xs) → length xs ≠ 2 →
       ∃ msg, get_alg_model E instantiate alg_cls w = (Raise (ValueError msg), w))
  ∧ (∀ xs, dict_get record "dataset" = Some (VTuple xs) → length xs ≠ 2 →
       ∃ msg, get_alg_dataset E instantiate alg_cls w = (Raise (ValueError msg), w)).
Proof.
  intros Hrec. split; [ | split; [ | split; [ | split ] ] ].
  - intros Hkey. rewrite get_alg_kwargs_run, Hrec, Hkey. reflexivity.
  - intros Hkey. rewrite get_alg_model_run, Hrec, Hkey. reflexivity.
  - intros Hkey. rewrite get_alg_dataset_run, Hrec, Hkey. reflexivity.
  - intros xs Hkey Hlen. rewrite get_alg_model_run, Hrec, Hkey.
    destruct xs as [|cls [|kwargs [|? ?]]]; cbn in Hlen; try congruence;
      eexists; reflexivity.
  - intros xs Hkey Hlen. rewrite get_alg_dataset_run, Hrec, Hkey.
    destruct xs as [|cls [|kwargs [|? ?]]]; cbn in Hlen; try congruence;
      eexists; reflexivity.
Qed.

End RegistryGetters.

(** ** [get_algs_with_marks], on any table *)

Section RegistryMarks.
Import Registry RegistryOps.
Variable E : Type.
Variable get_module_subclasses : E → (string + list AlgCls) * E.
Variable importable : string → string → E → bool * E.
Variable instantiate : PyVal → dict → E → (string + PyVal) * E.

(** What [get_algs_with_marks] does once the reflection has answered. *)
Lemma get_algs_with_marks_cases (w : World (gmap AlgCls (option dict)) Call E) :
  (∃ repr e1,
     get_module_subclasses (env w) = (inl repr, e1)
     ∧ get_algs_with_marks E get_module_subclasses importable w
       = (Raise (External repr),
          mkWorld (globals w) e1 (calls w ++ [CallGetModuleSubclasses])))
  ∨ (∃ classes e1,
       get_module_subclasses (env w) = (inr classes, e1)
       ∧ get_algs_with_marks E get_module_subclasses importable w
         = get_algs_with_marks_loop E importable classes []
             (mkWorld (globals w) e1 (calls w ++ [CallGetModuleSubclasses]))).
Proof.
  destruct (get_module_subclasses (env w)) as [[repr|classes] e1] eqn:Hsub.
  - left. exists repr, e1. split; [ reflexivity | ].
    unfold get_algs_with_marks, extcall. run. rewrite Hsub. reflexivity.
  - right. exists classes, e1. split; [ reflexivity | ].
    apply (get_algs_with_marks_run E get_module_subclasses importable classes e1 w Hsub).
Qed.

(** The entries of a returned list, whatever the reflection found. *)
Lemma get_algs_with_marks_entries (w : World (gmap AlgCls (option dict)) Call E) ans :
  fst (get_algs_with_marks E get_module_subclasses importable w) = Return ans →
  ∃ classes, fst (get_module_subclasses (env w)) = inr classes
             ∧ Forall2 (param_for (globals w)) classes ans.
Proof.
  intros Hrun.
  destruct (get_algs_with_marks_cases w)
    as [(repr & e1 & Hsub & Heq)|(classes & e1 & Hsub & Heq)];
    rewrite Heq in Hrun; [ discriminate Hrun | ].
  exists classes. rewrite Hsub. split; [ reflexivity | ].
  destruct (get_algs_with_marks_loop E importable classes [] _) as [o w'] eqn:Hloop.
  cbn [fst] in Hrun. subst o.
  apply get_algs_with_marks_loop_returns in Hloop as (new & -> & Hnew).
  exact Hnew.
Qed.

Lemma lacks_settings_key table alg_cls settings :
  table !! alg_cls = Some settings →
  (lacks_settings table alg_cls ↔ settings = None).
Proof.
  intros Hlook. unfold lacks_settings. rewrite Hlook. split.
  - intros [H|H]; [ discriminate H | injection H as ->; reflexivity ].
  - intros ->. right. reflexivity.
Qed.

(** X3.  The xfail mark and the configuration error go together: in a list
    returned by [get_algs_with_marks], an entry carries an xfail mark if and
    only if [get_alg_kwargs], [get_alg_model] and [get_alg_dataset] raise
    the configuration error on its class, in any world with the same
    table. *)
Theorem xfail_iff_getters_raise
    (w : World (gmap AlgCls (option dict)) Call E) (ans : list Param) :
  fst (get_algs_with_marks E get_module_subclasses importable w) = Return ans →
  Forall (λ p, ∀ w2 : World (gmap AlgCls (option dict)) Call E,
            globals w2 = globals w →
            ((∃ reason, xfail reason ∈ marks p)
             ↔ fst (get_alg_kwargs E (values p) w2)
               = Raise (missing_settings_error (values p)))
            ∧ ((∃ reason, xfail reason ∈ marks p)
               ↔ fst (get_alg_model E instantiate (values p) w2)
                 = Raise (missing_settings_error (values p)))
            ∧ ((∃ reason, xfail reason ∈ marks p)
               ↔ fst (get_alg_dataset E instantiate (values p) w2)
                 = Raise (missing_settings_error (values p)))) ans.
Proof.
  intros Hrun.
  destruct (get_algs_with_marks_entries w ans Hrun) as (classes & _ & Hentries).
  clear Hrun.
  induction Hentries as [|c p classes ans (settings & Hlook & ->) _ IH];
    [ constructor | ].
  constructor; [ | exact IH ].
  intros w2 Hsame. cbn [values marks].
  rewrite marks_for_xfail, <- (lacks_settings_key _ _ _ Hlook), <- Hsame.
  split; [ | split ].
  - apply get_alg_kwargs_missing_iff.
  - apply get_alg_model_missing_iff.
  - apply get_alg_dataset_missing_iff.
Qed.

(** The marks of one class, in full. *)
Lemma marks_for_contents alg_cls settings :
  (∀ reason, xfail reason ∈ marks_for alg_cls settings →
     reason = "Algorithm " +:+ __name__ alg_cls +:+ " is missing settings.")
  ∧ (∀ pattern, filterwarnings pattern ∈ marks_for alg_cls settings →
       (alg_cls = SWA ∧ pattern = swa_warning)
       ∨ (alg_cls = MixUp ∧ pattern = mixup_warning))
  ∧ (length (marks_for alg_cls settings) ≤ 2)%nat.
Proof.
  unfold marks_for.
  destruct (bool_decide (alg_cls = SWA)) eqn:Hswa;
    destruct (bool_decide (alg_cls = MixUp)) eqn:Hmix;
    try apply bool_decide_eq_true in Hswa;
    try apply bool_decide_eq_true in Hmix;
    try (exfalso; congruence);
    destruct settings as [record|]; cbn [app length];
    (split; [ | split; [ | lia ] ]);
    intros x Hin;
    repeat (apply elem_of_cons in Hin as [Hin|Hin];
            [ first [ discriminate Hin
                    | injection Hin as ->;
                      first [ reflexivity
                            | left; split; [ assumption | reflexivity ]
                            | right; split; [ assumption | reflexivity ] ] ] | ]);
    apply elem_of_nil in Hin; destruct Hin.
Qed.

(** X4.  In a list returned by [get_algs_with_marks] every entry has the
    [__name__] of its class as id; an xfail mark gives as reason
    "Algorithm <id> is missing settings."; a filterwarnings mark on SWA is
    the one for the lr_scheduler warning and on MixUp the one for the
    targets warning; and no entry carries more than two marks. *)
Theorem get_algs_with_marks_mark_contents
    (w : World (gmap AlgCls (option dict)) Call E) (ans : list Param) :
  fst (get_algs_with_marks E get_module_subclasses importable w) = Return ans →
  Forall (λ p,
      id p = __name__ (values p)
      ∧ (∀ reason, xfail reason ∈ marks p →
           reason = "Algorithm " +:+ id p +:+ " is missing settings.")
      ∧ (∀ pattern, filterwarnings pattern ∈ marks p →
           (values p = SWA ∧ pattern = swa_warning)
           ∨ (values p = MixUp ∧ pattern = mixup_warning))
      ∧ (length (marks p) ≤ 2)%nat) ans.
Proof.
  intros Hrun.
  destruct (get_algs_with_marks_entries w ans Hrun) as (classes & _ & Hentries).
  clear Hrun.
  induction Hentries as [|c p classes ans (settings & Hlook & ->) _ IH];
    [ constructor | ].
  constructor; [ | exact IH ].
  cbn [values marks id]. split; [ reflexivity | ].
  apply marks_for_contents.
Qed.

(** One turn of the loop. *)
Lemma get_algs_with_marks_loop_cons alg_cls classes ans
    (w : World (gmap AlgCls (option dict)) Call E) :
  get_algs_with_marks_loop E importable (alg_cls :: classes) ans w =
  match globals w !! alg_cls with
  | None => (Raise (KeyError (VAlg alg_cls)), w)
  | Some settings =>
      if bool_decide (alg_cls ∈ [CutMix; MixUp; LabelSmoothing]) then
        if fst (importable "torch" "1.10" (env w)) then
          get_algs_with_marks_loop E importable classes
            (ans ++ [param alg_cls (marks_for alg_cls settings) (__name__ alg_cls)])
            (mkWorld (globals w) (snd (importable "torch" "1.10" (env w)))
               (calls w ++ [CallImportOrSkip "torch" "1.10" "Pytorch 1.10 required."]))
        else
          (Raise (Skipped "Pytorch 1.10 required."),
           mkWorld (globals w) (snd (importable "torch" "1.10" (env w)))
             (calls w ++ [CallImportOrSkip "torch" "1.10" "Pytorch 1.10 required."]))
      else
        get_algs_with_marks_loop E importable classes
          (ans ++ [param alg_cls (marks_for alg_cls settings) (__name__ alg_cls)]) w
  end.
Proof.
  cbn [get_algs_with_marks_loop].
  unfold mbind at 1, M_bind at 1, bind at 1. rewrite _settings_getitem_run.
  destruct (globals w !! alg_cls) as [settings|]; [ | reflexivity ].
  unfold mbind at 1, M_bind at 1, bind at 1.
  destruct (bool_decide (alg_cls ∈ [CutMix; MixUp; LabelSmoothing])); [ | reflexivity ].
  rewrite importorskip_run.
  destruct (fst (importable "torch" "1.10" (env w))); reflexivity.
Qed.

(** What the loop logs: one [importorskip] of torch per class that asks
    for it, and nothing else. *)
Lemma get_algs_with_marks_loop_calls classes :
  ∀ ans (w : World (gmap AlgCls (option dict)) Call E),
  ∃ new,
    calls (snd (get_algs_with_marks_loop E importable classes ans w)) = calls w ++ new
    ∧ Forall (λ c, c = CallImportOrSkip "torch" "1.10" "Pytorch 1.10 required.") new
    ∧ (returns (fst (get_algs_with_marks_loop E importable classes ans w)) →
       length new
       = length (filter (λ c, c ∈ [CutMix; MixUp; LabelSmoothing]) classes)).
Proof.
  induction classes as [|alg_cls classes IH]; intros ans w.
  - exists []. cbn [get_algs_with_marks_loop]. rewrite app_nil_r.
    split; [ reflexivity | ]. split; [ constructor | reflexivity ].
  - rewrite get_algs_with_marks_loop_cons.
    destruct (globals w !! alg_cls) as [settings|].
    2:{ exists []. rewrite app_nil_r. split; [ reflexivity | ]. split; [ constructor | ].
        intros [a Ha]. discriminate Ha. }
    destruct (decide (alg_cls ∈ [CutMix; MixUp; LabelSmoothing])) as [Hin|Hout].
    + rewrite (bool_decide_eq_true_2 _ Hin).
      rewrite filter_cons_True by exact Hin.
      destruct (fst (importable "torch" "1.10" (env w))).
      * destruct (IH (ans ++ [param alg_cls (marks_for alg_cls settings) (__name__ alg_cls)])
                    (mkWorld (globals w) (snd (importable "torch" "1.10" (env w)))
                       (calls w ++ [CallImportOrSkip "torch" "1.10" "Pytorch 1.10 required."])))
          as (new & Hcalls & Hall & Hlen).
        exists (CallImportOrSkip "torch" "1.10" "Pytorch 1.10 required." :: new).
        split; [ rewrite Hcalls; cbn [calls]; rewrite <- app_assoc; reflexivity | ].
        split; [ constructor; [ reflexivity | exact Hall ] | ].
        intros Hret. cbn [length]. rewrite (Hlen Hret). reflexivity.
      * exists [CallImportOrSkip "torch" "1.10" "Pytorch 1.10 required."].
        split; [ reflexivity | ]. split; [ repeat constructor | ].
        intros [a Ha]. discriminate Ha.
    + rewrite (bool_decide_eq_false_2 _ Hout).
      rewrite filter_cons_False by exact Hout. apply IH.
Qed.

(** X5.  [get_algs_with_marks] builds no model and no dataset: whatever
    the outcome, its calls are the reflection over the algorithms module
    followed only by [pytest.importorskip("torch", minversion="1.10")], and
    when it returns there is one such call per class found among CutMix,
    MixUp and LabelSmoothing. *)
Theorem get_algs_with_marks_never_instantiates
    (w : World (gmap AlgCls (option dict)) Call E) :
  ∃ new,
    calls (snd (get_algs_with_marks E get_module_subclasses importable w))
    = calls w ++ CallGetModuleSubclasses :: new
    ∧ Forall (λ c, c = CallImportOrSkip "torch" "1.10" "Pytorch 1.10 required.") new
    ∧ (∀ classes,
         fst (get_module_subclasses (env w)) = inr classes →
         returns (fst (get_algs_with_marks E get_module_subclasses importable w)) →
         length new
         = length (filter (λ c, c ∈ [CutMix; MixUp; LabelSmoothing]) classes)).
Proof.
  destruct (get_algs_with_marks_cases w)
    as [(repr & e1 & Hsub & Heq)|(classes & e1 & Hsub & Heq)]; rewrite Heq.
  - exists []. split; [ reflexivity | ]. split; [ constructor | ].
    intros classes _ [a Ha]. discriminate Ha.
  - destruct (get_algs_with_marks_loop_calls classes []
                (mkWorld (globals w) e1 (calls w ++ [CallGetModuleSubclasses])))
      as (new & Hcalls & Hall & Hlen).
    exists new. split; [ rewrite Hcalls; cbn [calls]; rewrite <- app_assoc; reflexivity | ].
    split; [ exact Hall | ].
    intros classes' Hsub' Hret. rewrite Hsub in Hsub'. injection Hsub' as <-.
    apply Hlen, Hret.
Qed.



(** X7.  With the reflection's answer fixed and an environment that gives
    one answer [torch_ok] on torch 1.10, [get_algs_with_marks] returns if
    and only if every class found is a key of the table and, when one of
    CutMix, MixUp and LabelSmoothing is found, torch 1.10 can be
    imported. *)
Theorem get_algs_with_marks_returns_iff
    (w : World (gmap AlgCls (option dict)) Call E) (classes : list AlgCls) (e1 : E)
    (torch_ok : bool) :
  get_module_subclasses (env w) = (inr classes, e1) →
  (∀ e, fst (importable "torch" "1.10" e) = torch_ok) →
  returns (fst (get_algs_with_marks E get_module_subclasses importable w))
  ↔ Forall (λ c, is_Some (globals w !! c)) classes
    ∧ (Exists (λ c, c ∈ [CutMix; MixUp; LabelSmoothing]) classes → torch_ok = true).
Proof.
  intros Hsub Htorch.
  rewrite (get_algs_with_marks_run E get_module_subclasses importable classes e1 w Hsub).
  split.
  - intros [ans Hans].
    destruct (get_algs_with_marks_loop E importable classes [] _) as [o w'] eqn:Hloop.
    cbn [fst] in Hans. subst o. split.
    + apply get_algs_with_marks_loop_returns in Hloop as (new & _ & Hnew).
      cbn [globals] in Hnew. clear -Hnew.
      induction Hnew as [|c p classes new (settings & Hlook & _) _ IH]; constructor;
        [ rewrite Hlook; eauto | exact IH ].
    + intros Hex. destruct torch_ok; [ reflexivity | exfalso ].
      clear Hsub. revert Hloop.
      generalize (mkWorld (globals w) e1 (calls w ++ [CallGetModuleSubclasses])).
      generalize (@nil Param) as acc.
      induction Hex as [c classes Hin|c classes Hex IH]; intros acc w0;
        rewrite get_algs_with_marks_loop_cons;
        (destruct (globals w0 !! c) as [settings|]; [ | discriminate ]).
      * rewrite (bool_decide_eq_true_2 _ Hin), Htorch. discriminate.
      * destruct (bool_decide (c ∈ [CutMix; MixUp; LabelSmoothing]));
          [ rewrite Htorch; discriminate | apply IH ].
  - intros [Hkeys Hok].
    destruct (get_algs_with_marks_loop_total E importable classes []
                (mkWorld (globals w) e1 (calls w ++ [CallGetModuleSubclasses])))
      as (ans & w' & Hrun).
    + exact Hkeys.
    + intros Hex e. rewrite Htorch. apply Hok, Hex.
    + exists ans. rewrite Hrun. reflexivity.
Qed.

End RegistryMarks.

(** ** The table the module defines *)

Ltac settings_lookup :=
  match goal with
  | |- context [ Registry._settings !! ?c ] =>
      let v := eval vm_compute in (Registry._settings !! c) in
      change (Registry._settings !! c) with v
  end.

Section RegistryTable.
Import Registry RegistryOps.
Variable E : Type.
Variable instantiate : PyVal → dict → E → (string + PyVal) * E.

Lemma lacks_settings__settings alg_cls :
  lacks_settings _settings alg_cls
  ↔ alg_cls = Alibi ∨ alg_cls = SeqLengthWarmup ∨ ∃ name, alg_cls = OtherAlg name.
Proof.
  split.
  - intros Hlacks.
    destruct alg_cls;
      try (left; reflexivity);
      try (right; left; reflexivity);
      try (right; right; eexists; reflexivity);
      exfalso; destruct Hlacks as [H|H]; vm_compute in H; discriminate H.
  - intros [->|[->|[name ->]]].
    + right. vm_compute. reflexivity.
    + right. vm_compute. reflexivity.
    + left. apply _settings_lookup_other.
Qed.

(** X8.  On the module's table the getters raise the configuration error
    for Alibi, for SeqLengthWarmup and for every class that is not one of
    the imported algorithms, and for no other class. *)
Theorem unconfigured_algorithms (alg_cls : AlgCls) (e : E) (log : list Call) :
  (fst (get_alg_kwargs E alg_cls (initial_world e log))
   = Raise (missing_settings_error alg_cls)
   ↔ alg_cls = Alibi ∨ alg_cls = SeqLengthWarmup ∨ ∃ name, alg_cls = OtherAlg name)
  ∧ (fst (get_alg_model E instantiate alg_cls (initial_world e log))
     = Raise (missing_settings_error alg_cls)
     ↔ alg_cls = Alibi ∨ alg_cls = SeqLengthWarmup ∨ ∃ name, alg_cls = OtherAlg name)
  ∧ (fst (get_alg_dataset E instantiate alg_cls (initial_world e log))
     = Raise (missing_settings_error alg_cls)
     ↔ alg_cls = Alibi ∨ alg_cls = SeqLengthWarmup ∨ ∃ name, alg_cls = OtherAlg name).
Proof.
  rewrite <- lacks_settings__settings.
  split; [ | split ]; symmetry.
  - apply (get_alg_kwargs_missing_iff E alg_cls (initial_world e log)).
  - apply (get_alg_model_missing_iff E instantiate alg_cls (initial_world e log)).
  - apply (get_alg_dataset_missing_iff E instantiate alg_cls (initial_world e log)).
Qed.

(** X9.  On the module's table every configured algorithm is tested on a
    [RandomImageDataset], with a [SimpleConvModel] or a [ComposerResNet];
    a [SimpleConvModel] and its dataset are built with no arguments, and a
    [ComposerResNet] is built for two classes and always comes with images
    of shape (3, 224, 224). *)
Theorem settings_model_dataset_pairing (alg_cls : AlgCls) (e : E) (log : list Call) :
  ¬ lacks_settings _settings alg_cls →
  ∃ model model_kwargs dataset_kwargs,
    get_alg_dataset E instantiate alg_cls (initial_world e log)
    = extcall (CallConstruct (VClass RandomImageDataset) dataset_kwargs)
        (instantiate (VClass RandomImageDataset) dataset_kwargs) (initial_world e log)
    ∧ get_alg_model E instantiate alg_cls (initial_world e log)
      = extcall (CallConstruct (VClass model) model_kwargs)
          (instantiate (VClass model) model_kwargs) (initial_world e log)
    ∧ ((model = SimpleConvModel ∧ model_kwargs = [] ∧ dataset_kwargs = [])
       ∨ (model = ComposerResNet
          ∧ (∃ model_name, model_kwargs = [("model_name", VStr model_name);
                                           ("num_classes", VInt 2)])
          ∧ dataset_kwargs = [("shape", VTuple [VInt 3; VInt 224; VInt 224])])).
Proof.
  intros Hpresent.
  destruct alg_cls;
    try (exfalso; apply Hpresent; apply lacks_settings__settings;
         first [ left; reflexivity | right; left; reflexivity
               | right; right; eexists; reflexivity ]);
    rewrite get_alg_dataset_run, get_alg_model_run;
    cbn [globals initial_world]; settings_lookup; cbn [dict_get String.eqb Ascii.eqb Bool.eqb];
    eexists _, _, _; (split; [ reflexivity | ]); (split; [ reflexivity | ]);
    first [ left; repeat split; reflexivity
          | right; split; [ reflexivity | ]; split; [ eexists; reflexivity | reflexivity ] ].
Qed.

End RegistryTable.

(** ** [initialize_object], on every path *)

(** Case on the answer of the next external call in the goal. *)
Ltac next_call extern :=
  match goal with
  | |- context [ extern ?c ?e ] =>
      let H := fresh "Hcall" in
      destruct (extern c e) as [[?repr|?obj] ?e'] eqn:H;
      cbn [answer env globals calls fst snd]
  end.

Section MnistPaths.
Import Mnist.
Variable E : Type.
Variable extern : Call → E → (string + PyVal) * E.


(** X11.  On real data with a data directory, the dataset is
    [datasets.MNIST(datadir, train=is_train, download=download,
    transform=Compose([ToTensor()]))]: these three calls open the run, no
    other dataset is built, and what [datasets.MNIST] returns goes to the
    sampler. *)
Theorem initialize_object_real_data_calls
    (self : MNISTDatasetHparams) (batch_size : Z) (dataloader_hparams : PyVal)
    (w : World unit Call E) (root : string) (to_tensor transform : PyVal) (e1 e2 : E) :
  use_synthetic self = false →
  datadir self = Some root →
  extern ToTensor (env w) = (inr to_tensor, e1) →
  extern (Compose [to_tensor]) e1 = (inr transform, e2) →
  ∃ rest,
    calls (snd (initialize_object E extern self batch_size dataloader_hparams w))
    = calls w
        ++ [ToTensor; Compose [to_tensor];
            MNIST root (is_train self) (download self) transform]
        ++ rest
    ∧ Forall (λ c, constructs_dataset c = false) rest
    ∧ (∀ dataset e3,
         extern (MNIST root (is_train self) (download self) transform) e2
         = (inr dataset, e3) →
         head rest = Some (get_sampler dataset (drop_last self) (shuffle self))).
Proof.
  intros Hsyn Hdir Htensor Hcompose.
  unfold initialize_object, call, extcall. run.
  rewrite Hsyn, Hdir, Htensor. cbn [answer env globals calls].
  rewrite Hcompose. cbn [answer env globals calls].
  next_call extern.
  { exists []. rewrite <- !app_assoc. split; [ reflexivity | ].
    split; [ constructor | ]. intros dataset e3 H. discriminate H. }
  next_call extern.
  { eexists [_]. rewrite <- !app_assoc. split; [ reflexivity | ].
    split; [ repeat constructor | ]. intros dataset e3 [= <- <-]. reflexivity. }
  next_call extern;
    eexists [_; _]; rewrite <- !app_assoc; (split; [ reflexivity | ]);
    (split; [ repeat constructor | ]); intros dataset e3 [= <- <-]; reflexivity.
Qed.

(** X12.  When [initialize_object] returns, exactly one dataset was built;
    the sampler was made from that dataset with [drop_last] and [shuffle];
    the dataloader was made by [dataloader_hparams] from the same dataset,
    [batch_size], that sampler and the same [drop_last]; and what the
    dataloader call returned is what [initialize_object] returns. *)
Theorem initialize_object_returns_dataloader
    (self : MNISTDatasetHparams) (batch_size : Z) (dataloader_hparams : PyVal)
    (w : World unit Call E) (loader : PyVal) :
  fst (initialize_object E extern self batch_size dataloader_hparams w) = Return loader →
  ∃ before build dataset sampler e0 e1 e2 e3,
    calls (snd (initialize_object E extern self batch_size dataloader_hparams w))
    = calls w ++ before
        ++ [build;
            get_sampler dataset (drop_last self) (shuffle self);
            DataLoaderHparams_initialize_object dataloader_hparams dataset batch_size
              sampler (drop_last self)]
    ∧ Forall (λ c, constructs_dataset c = false) before
    ∧ constructs_dataset build = true
    ∧ extern build e0 = (inr dataset, e1)
    ∧ extern (get_sampler dataset (drop_last self) (shuffle self)) e1 = (inr sampler, e2)
    ∧ extern (DataLoaderHparams_initialize_object dataloader_hparams dataset batch_size
                sampler (drop_last self)) e2 = (inr loader, e3)
    ∧ env (snd (initialize_object E extern self batch_size dataloader_hparams w)) = e3.
Proof.
  unfold initialize_object, call, extcall. run.
  destruct (use_synthetic self); [ | destruct (datadir self) as [root|] ].
  - next_call extern; [ intros H; discriminate H | ].
    next_call extern; [ intros H; discriminate H | ].
    next_call extern; [ intros H; discriminate H | ].
    intros [= <-]. exists []. eexists _, _, _, _, _, _, _.
    rewrite <- !app_assoc. split; [ reflexivity | ]. split; [ constructor | ].
    split; [ reflexivity | ]. repeat (split; [ eassumption | ]). reflexivity.
  - next_call extern; [ intros H; discriminate H | ].
    next_call extern; [ intros H; discriminate H | ].
    next_call extern; [ intros H; discriminate H | ].
    next_call extern; [ intros H; discriminate H | ].
    next_call extern; [ intros H; discriminate H | ].
    intros [= <-]. eexists [_; _]. eexists _, _, _, _, _, _, _.
    rewrite <- !app_assoc. split; [ reflexivity | ]. split; [ repeat constructor | ].
    split; [ reflexivity | ]. repeat (split; [ eassumption | ]). reflexivity.
  - intros H. discriminate H.
Qed.

(** X13.  Whatever the outcome, a run of [initialize_object] builds at most
    one dataset, and a run that builds none has called nothing but the
    transforms: no sampler and no dataloader is ever made without a
    dataset. *)
Theorem initialize_object_at_most_one_dataset
    (self : MNISTDatasetHparams) (batch_size : Z) (dataloader_hparams : PyVal)
    (w : World unit Call E) :
  ∃ new,
    calls (snd (initialize_object E extern self batch_size dataloader_hparams w))
    = calls w ++ new
    ∧ (length (List.filter constructs_dataset new) ≤ 1)%nat
    ∧ (List.filter constructs_dataset new = [] →
       Forall (λ c, c = ToTensor ∨ ∃ transforms, c = Compose transforms) new).
Proof.
  unfold initialize_object, call, extcall. run.
  destruct (use_synthetic self); [ | destruct (datadir self) as [root|] ].
  - next_call extern; [ | next_call extern; [ | next_call extern ] ];
      eexists; rewrite <- ?app_assoc; (split; [ reflexivity | ]);
      cbn [List.filter constructs_dataset app length];
      (split; [ lia | intros H; discriminate H ]).
  - next_call extern;
      [ | next_call extern;
          [ | next_call extern; [ | next_call extern; [ | next_call extern ] ] ] ];
      eexists; rewrite <- ?app_assoc; (split; [ reflexivity | ]);
      cbn [List.filter constructs_dataset app length];
      (split; [ lia | ]);
      first [ intros H; discriminate H
            | intros _;
              repeat (apply List.Forall_cons;
                      [ first [ left; reflexivity | right; eexists; reflexivity ] | ]);
              apply List.Forall_nil ].
  - exists []. rewrite app_nil_r. split; [ reflexivity | ].
    split; [ cbn; lia | constructor ].
Qed.

(** X14.  With [use_synthetic] unset, the three [synthetic_*] settings are
    never consulted: two hparams objects that agree on every other field
    run alike. *)
Theorem initialize_object_real_ignores_synthetic
    (self self' : MNISTDatasetHparams) (batch_size : Z) (dataloader_hparams : PyVal)
    (w : World unit Call E) :
  use_synthetic self = false →
  use_synthetic self' = false →
  is_train self' = is_train self →
  drop_last self' = drop_last self →
  shuffle self' = shuffle self →
  datadir self' = datadir self →
  download self' = download self →
  initialize_object E extern self' batch_size dataloader_hparams w
  = initialize_object E extern self batch_size dataloader_hparams w.
Proof.
  intros Hsyn Hsyn' Htrain Hdrop Hshuffle Hdir Hdownload.
  unfold initialize_object.
  rewrite Hsyn, Hsyn', Htrain, Hdrop, Hshuffle, Hdir, Hdownload. reflexivity.
Qed.

End MnistPaths.

(** ** The further properties on concrete inputs *)

Section RegistryMoreExamples.
Import Registry RegistryOps Inputs.

Lemma get_alg_malformed_record_witness :
  globals malformed_world !! AGC = Some (Some [("model", VTuple [VClass SimpleConvModel])])
  ∧ get_alg_kwargs N AGC malformed_world
    = (Raise (KeyError (VStr "kwargs")), malformed_world)
  ∧ get_alg_dataset N test_instantiate AGC malformed_world
    = (Raise (KeyError (VStr "dataset")), malformed_world)
  ∧ ∃ msg, get_alg_model N test_instantiate AGC malformed_world
           = (Raise (ValueError msg), malformed_world).
Proof.
  assert (Hrec : globals malformed_world !! AGC
                 = Some (Some [("model", VTuple [VClass SimpleConvModel])]))
    by (vm_compute; reflexivity).
  split; [ exact Hrec | ].
  destruct (get_alg_malformed_record N test_instantiate AGC _ malformed_world Hrec)
    as (Hkwargs & _ & Hdataset & Hmodel & _).
  split; [ apply Hkwargs; reflexivity | ].
  split; [ apply Hdataset; reflexivity | ].
  apply (Hmodel [VClass SimpleConvModel]); [ reflexivity | discriminate ].
Defined.

Lemma xfail_iff_getters_raise_witness :
  ∃ ans,
    fst (get_algs_with_marks N (test_subclasses imported_algorithms) (test_importable true)
           test_world) = Return ans
    ∧ Forall (λ p, ∀ w2 : World (gmap AlgCls (option dict)) Call N,
                globals w2 = globals test_world →
                ((∃ reason, xfail reason ∈ marks p)
                 ↔ fst (get_alg_kwargs N (values p) w2)
                   = Raise (missing_settings_error (values p)))
                ∧ ((∃ reason, xfail reason ∈ marks p)
                   ↔ fst (get_alg_model N test_instantiate (values p) w2)
                     = Raise (missing_settings_error (values p)))
                ∧ ((∃ reason, xfail reason ∈ marks p)
                   ↔ fst (get_alg_dataset N test_instantiate (values p) w2)
                     = Raise (missing_settings_error (values p)))) ans.
Proof.
  eexists. split; [ vm_compute; reflexivity | ].
  apply (xfail_iff_getters_raise
           N (test_subclasses imported_algorithms) (test_importable true) test_instantiate
           test_world).
  vm_compute. reflexivity.
Defined.

Lemma get_algs_with_marks_mark_contents_witness :
  ∃ ans,
    fst (get_algs_with_marks N (test_subclasses imported_algorithms) (test_importable true)
           test_world) = Return ans
    ∧ Forall (λ p,
        id p = __name__ (values p)
        ∧ (∀ reason, xfail reason ∈ marks p →
             reason = "Algorithm " +:+ id p +:+ " is missing settings.")
        ∧ (∀ pattern, filterwarnings pattern ∈ marks p →
             (values p = SWA ∧ pattern = swa_warning)
             ∨ (values p = MixUp ∧ pattern = mixup_warning))
        ∧ (length (marks p) ≤ 2)%nat) ans.
Proof.
  eexists. split; [ vm_compute; reflexivity | ].
  apply (get_algs_with_marks_mark_contents
           N (test_subclasses imported_algorithms) (test_importable true) test_world).
  vm_compute. reflexivity.
Defined.


Lemma get_algs_with_marks_returns_iff_witness :
  test_subclasses imported_algorithms (env test_world) = (inr imported_algorithms, 0%N)
  ∧ (∀ e, fst (test_importable false "torch" "1.10" e) = false)
  ∧ (returns (fst (get_algs_with_marks N (test_subclasses imported_algorithms)
                     (test_importable false) test_world))
     ↔ Forall (λ c, is_Some (globals test_world !! c)) imported_algorithms
       ∧ (Exists (λ c, c ∈ [CutMix; MixUp; LabelSmoothing]) imported_algorithms →
          false = true)).
Proof.
  split; [ reflexivity | ]. split; [ reflexivity | ].
  apply (get_algs_with_marks_returns_iff
           N (test_subclasses imported_algorithms) (test_importable false)
           test_world imported_algorithms 0%N false); reflexivity.
Defined.

Lemma settings_model_dataset_pairing_witness :
  ¬ lacks_settings _settings GhostBatchNorm
  ∧ ∃ model model_kwargs dataset_kwargs,
      get_alg_dataset N test_instantiate GhostBatchNorm (initial_world 0%N [])
      = extcall (CallConstruct (VClass RandomImageDataset) dataset_kwargs)
          (test_instantiate (VClass RandomImageDataset) dataset_kwargs) (initial_world 0%N [])
      ∧ get_alg_model N test_instantiate GhostBatchNorm (initial_world 0%N [])
        = extcall (CallConstruct (VClass model) model_kwargs)
            (test_instantiate (VClass model) model_kwargs) (initial_world 0%N [])
      ∧ ((model = SimpleConvModel ∧ model_kwargs = [] ∧ dataset_kwargs = [])
         ∨ (model = ComposerResNet
            ∧ (∃ model_name, model_kwargs = [("model_name", VStr model_name);
                                             ("num_classes", VInt 2)])
            ∧ dataset_kwargs = [("shape", VTuple [VInt 3; VInt 224; VInt 224])])).
Proof.
  assert (Hpresent : ¬ lacks_settings _settings GhostBatchNorm)
    by (intros [H|H]; vm_compute in H; discriminate H).
  split; [ exact Hpresent | ].
  exact (settings_model_dataset_pairing N test_instantiate GhostBatchNorm 0%N [] Hpresent).
Defined.

End RegistryMoreExamples.

Section MnistMoreExamples.
Import Mnist Inputs.

Lemma initialize_object_real_data_calls_witness :
  use_synthetic (real_hparams "/datasets/mnist" (VStr "cpu")) = false
  ∧ datadir (real_hparams "/datasets/mnist" (VStr "cpu")) = Some "/datasets/mnist"
  ∧ test_extern ToTensor (env test_world) = (inr (VObj 0), 1%N)
  ∧ test_extern (Compose [VObj 0]) 1%N = (inr (VObj 1), 2%N)
  ∧ ∃ rest,
      calls (snd (initialize_object N test_extern (real_hparams "/datasets/mnist" (VStr "cpu"))
                    64 (VObj 7) test_world))
      = calls test_world
          ++ [ToTensor; Compose [VObj 0];
              MNIST "/datasets/mnist"
                (is_train (real_hparams "/datasets/mnist" (VStr "cpu")))
                (download (real_hparams "/datasets/mnist" (VStr "cpu"))) (VObj 1)]
          ++ rest
      ∧ Forall (λ c, constructs_dataset c = false) rest
      ∧ (∀ dataset e3,
           test_extern
             (MNIST "/datasets/mnist"
                (is_train (real_hparams "/datasets/mnist" (VStr "cpu")))
                (download (real_hparams "/datasets/mnist" (VStr "cpu"))) (VObj 1)) 2%N
           = (inr dataset, e3) →
           head rest
           = Some (get_sampler dataset
                     (drop_last (real_hparams "/datasets/mnist" (VStr "cpu")))
                     (shuffle (real_hparams "/datasets/mnist" (VStr "cpu"))))).
Proof.
  do 4 (split; [ reflexivity | ]).
  apply (initialize_object_real_data_calls
           N test_extern (real_hparams "/datasets/mnist" (VStr "cpu")) 64 (VObj 7)
           test_world "/datasets/mnist" (VObj 0) (VObj 1) 1%N 2%N); reflexivity.
Defined.

Lemma initialize_object_returns_dataloader_witness :
  fst (initialize_object N test_extern (synthetic_hparams true) 64 (VObj 7) test_world)
  = Return (VObj 2)
  ∧ ∃ before build dataset sampler e0 e1 e2 e3,
      calls (snd (initialize_object N test_extern (synthetic_hparams true) 64 (VObj 7)
                    test_world))
      = calls test_world ++ before
          ++ [build;
              get_sampler dataset (drop_last (synthetic_hparams true))
                (shuffle (synthetic_hparams true));
              DataLoaderHparams_initialize_object (VObj 7) dataset 64 sampler
                (drop_last (synthetic_hparams true))]
      ∧ Forall (λ c, constructs_dataset c = false) before
      ∧ constructs_dataset build = true
      ∧ test_extern build e0 = (inr dataset, e1)
      ∧ test_extern (get_sampler dataset (drop_last (synthetic_hparams true))
                       (shuffle (synthetic_hparams true))) e1 = (inr sampler, e2)
      ∧ test_extern (DataLoaderHparams_initialize_object (VObj 7) dataset 64 sampler
                       (drop_last (synthetic_hparams true))) e2 = (inr (VObj 2), e3)
      ∧ env (snd (initialize_object N test_extern (synthetic_hparams true) 64 (VObj 7)
                    test_world)) = e3.
Proof.
  split; [ vm_compute; reflexivity | ].
  apply (initialize_object_returns_dataloader
           N test_extern (synthetic_hparams true) 64 (VObj 7) test_world (VObj 2)).
  vm_compute. reflexivity.
Defined.

Lemma initialize_object_real_ignores_synthetic_witness :
  use_synthetic (real_hparams "/datasets/mnist" (VStr "cpu")) = false
  ∧ use_synthetic (real_hparams "/datasets/mnist" (VStr "gpu")) = false
  ∧ initialize_object N test_extern (real_hparams "/datasets/mnist" (VStr "gpu"))
      64 (VObj 7) test_world
    = initialize_object N test_extern (real_hparams "/datasets/mnist" (VStr "cpu"))
        64 (VObj 7) test_world.
Proof.
  split; [ reflexivity | ]. split; [ reflexivity | ].
  apply (initialize_object_real_ignores_synthetic
           N test_extern (real_hparams "/datasets/mnist" (VStr "cpu"))
           (real_hparams "/datasets/mnist" (VStr "gpu")) 64 (VObj 7) test_world);
    reflexivity.
Defined.

End MnistMoreExamples.
